(** * dnd-templates: the layout engine of the two PDF template generators

    A shallow embedding of [faction_template.py] and [lazy_dm_template.py].

    Both scripts are straight-line drawing code against a ReportLab canvas
    [c].  The layout code only ever writes to the canvas (the one read,
    [c.stringWidth], asks for a font metric), so a routine is modelled by
    the value it returns together with the canvas calls it issues, in the
    order it issues them.  Coordinates are Python numbers; for the layout
    they are modelled as exact rationals ([Q]).  Python's [/] raises
    [ZeroDivisionError] on a zero divisor, which the model keeps wherever
    the divisor is not a numeric literal.

    What a routine returns for arbitrary arguments is a matter of binary64
    rounding, which exact rationals do not show: module [Doubles] gives the
    two routines that return a cursor once more, on doubles. *)

From Stdlib Require Import QArith Qround ZArith List String Bool Lia Lqa DecimalString.
From Stdlib Require Import Floats.
Import ListNotations.

Open Scope Q_scope.

(** ** The canvas interface *)

(** [reportlab.lib.colors.Color(r, g, b)] *)
Inductive Color : Type := MkColor (r g b : Q).

(** One call on the canvas object, with its arguments. *)
Inductive call : Type :=
| SetStrokeColor (col : Color)
| SetFillColor (col : Color)
| SetLineWidth (w : Q)
| SetDash (pattern : list Q)
| SetFont (name : string) (size : Q)
| Line (x1 y1 x2 y2 : Q)
| Rect (x y width height : Q)
| Arc (x1 y1 x2 y2 startAng extent : Q)
| Circle (x_cen y_cen r : Q) (fill : Z)
| DrawString (x y : Q) (text : string)
| DrawCentredString (x y : Q) (text : string)
| LinkRect (contents destinationname : string) (rect : Q * Q * Q * Q)
           (Border : string)
| BookmarkPage (key : string)
| ShowPage
| Save.

(** [c.stringWidth(text, fontName, fontSize)]: the backend's font metrics. *)
Definition Metrics : Type := string -> string -> Q -> Q.

Inductive Exception : Type := ZeroDivisionError.

Inductive result (A : Type) : Type :=
| Ok (a : A)
| Raise (e : Exception).
Arguments Ok {A} a.
Arguments Raise {A} e.

(** A drawing routine: given the canvas's metrics it either raises, or
    returns a value and the calls it made on the canvas. *)
Definition M (A : Type) : Type := Metrics -> result (A * list call).

Definition ret {A} (a : A) : M A := fun _ => Ok (a, []).

Definition bind {A B} (m : M A) (k : A -> M B) : M B :=
  fun mt =>
    match m mt with
    | Ok (a, ops1) =>
        match k a mt with
        | Ok (b, ops2) => Ok (b, ops1 ++ ops2)
        | Raise e => Raise e
        end
    | Raise e => Raise e
    end.

Definition raise {A} (e : Exception) : M A := fun _ => Raise e.

Notation "x <- m ;; k" := (bind m (fun x => k))
  (at level 61, m at next level, right associativity).
Notation "m ;; k" := (bind m (fun _ => k))
  (at level 61, right associativity).

(** The methods of the canvas object, under the name the source uses. *)
Module c.
Definition emit (op : call) : M unit := fun _ => Ok (tt, [op]).

Definition setStrokeColor (col : Color) := emit (SetStrokeColor col).
Definition setFillColor (col : Color) := emit (SetFillColor col).
Definition setLineWidth (w : Q) := emit (SetLineWidth w).
Definition setDash (pattern : list Q) := emit (SetDash pattern).
Definition setFont (name : string) (size : Q) := emit (SetFont name size).
Definition line (x1 y1 x2 y2 : Q) := emit (Line x1 y1 x2 y2).
Definition rect (x y width height : Q) := emit (Rect x y width height).
Definition arc (x1 y1 x2 y2 startAng extent : Q) :=
  emit (Arc x1 y1 x2 y2 startAng extent).
Definition circle (x_cen y_cen r : Q) (fill : Z) :=
  emit (Circle x_cen y_cen r fill).
Definition drawString (x y : Q) (text : string) :=
  emit (DrawString x y text).
Definition drawCentredString (x y : Q) (text : string) :=
  emit (DrawCentredString x y text).
Definition linkRect (contents destinationname : string)
    (rect : Q * Q * Q * Q) (Border : string) :=
  emit (LinkRect contents destinationname rect Border).
Definition bookmarkPage (key : string) := emit (BookmarkPage key).
Definition showPage := emit ShowPage.
Definition save := emit Save.

Definition stringWidth (text fontName : string) (fontSize : Q) : M Q :=
  fun mt => Ok (mt text fontName fontSize, []).
End c.

(** ** Python built-ins used by the scripts *)

Module Py.
(** [range(n)]: empty when [n <= 0]. *)
Definition range (n : Z) : list Z := map Z.of_nat (seq 0 (Z.to_nat n)).

(** [range(a, b)] *)
Definition range2 (a b : Z) : list Z :=
  map (fun k => (a + Z.of_nat k)%Z) (seq 0 (Z.to_nat (b - a))).

Definition len {A} (l : list A) : Z := Z.of_nat (List.length l).

(** [enumerate(l)] *)
Definition enumerate {A} (l : list A) : list (Z * A) :=
  combine (range (len l)) l.

(** [a / b] with a divisor that is not a literal. *)
Definition div (a b : Q) : M Q :=
  if Qeq_bool b 0 then raise ZeroDivisionError else ret (a / b).

(** [int(x)]: truncation toward zero. *)
Definition int (x : Q) : Z := Z.quot (Qnum x) (Z.pos (Qden x)).

(** [min(a, b)]: the first of the two when they compare equal. *)
Definition min (a b : Q) : Q := if Qle_bool a b then a else b.

(** [str(n)] of an integer, as an f-string formats it. *)
Definition str (n : Z) : string := NilZero.string_of_int (Z.to_int n).

(** [for a in l: body(a)] *)
Fixpoint for_ {A} (l : list A) (body : A -> M unit) : M unit :=
  match l with
  | [] => ret tt
  | a :: l' => body a ;; for_ l' body
  end.

(** [for a in l: s = body(a, s)], for a loop that updates a local. *)
Fixpoint for_acc {A S} (l : list A) (s : S) (body : A -> S -> M S) : M S :=
  match l with
  | [] => ret s
  | a :: l' => s' <- body a s ;; for_acc l' s' body
  end.
End Py.

Notation "# z" := (inject_Z z) (at level 1, format "# z") : Q_scope.

(** ** Documents *)

(** What [canvas.Canvas(filename, pagesize=...)] is opened with, and the
    calls made on it up to and including [c.save()]. *)
Record Document : Type := mkDocument {
  filename : string;
  pagesize : Q * Q;
  calls : list call
}.

(** [canvas.Canvas(filename, pagesize)], then [body] run against it.  The
    canvas's metrics [mt] belong to the backend. *)
Definition with_canvas (mt : Metrics) (fname : string) (size : Q * Q)
    (body : M unit) : result Document :=
  match body mt with
  | Ok (_, ops) => Ok (mkDocument fname size ops)
  | Raise e => Raise e
  end.

(** ** lazy_dm_template.py *)

Module LazyDM.

Definition RM2_WIDTH : Q := 1404 * 72 / 226.
Definition RM2_HEIGHT : Q := 1872 * 72 / 226.

Definition LIGHT_GRAY := MkColor 0.8 0.8 0.8.
Definition MED_GRAY := MkColor 0.6 0.6 0.6.
Definition DARK_GRAY := MkColor 0.3 0.3 0.3.

Definition MARGIN : Q := 20.
Definition LINE_HEIGHT : Q := 14.
Definition SMALL_LINE_HEIGHT : Q := 12.
Definition NAV_HEIGHT : Q := 25.
Definition HEADER_HEIGHT : Q := 18.

Definition PAGES : list string :=
  ["Overview"; "Scenes"; "Locations"; "Secrets"; "NPCs"; "Combat"; "Notes"]%string.

Definition draw_nav_bar (page_width : Q) (current_page_idx : Z) : M Q :=
  let y := RM2_HEIGHT - MARGIN - 15 in
  c.setStrokeColor MED_GRAY ;;
  c.setLineWidth 1 ;;
  c.line MARGIN (y - 8) (page_width - MARGIN) (y - 8) ;;
  c.line MARGIN (y + 12) (page_width - MARGIN) (y + 12) ;;
  link_width <- Py.div (page_width - 2 * MARGIN) #(Py.len PAGES) ;;
  Py.for_ (Py.enumerate PAGES) (fun '(i, page_name) =>
    let x := MARGIN + #i * link_width + link_width / 2 in
    (if (i =? current_page_idx)%Z then
       c.setFillColor DARK_GRAY ;;
       c.setFont "Helvetica-Bold" 10
     else
       c.setFillColor MED_GRAY ;;
       c.setFont "Helvetica" 10) ;;
    c.drawCentredString x y page_name ;;
    let link_rect := (x - link_width / 2 + 5, y - 5, x + link_width / 2 - 5, y + 12) in
    c.linkRect "" ("page" ++ Py.str (i + 1)) link_rect "[0 0 0]") ;;
  ret (y - 20).

Definition draw_corner_flourish (x y : Q) (position : string) : M unit :=
  c.setStrokeColor MED_GRAY ;;
  c.setLineWidth 0.75 ;;
  let size := 8 in
  if (position =? "tl")%string then
    c.line x y (x + size) y ;;
    c.line x y x (y - size) ;;
    c.arc x (y - size) (x + size) y 90 90
  else if (position =? "tr")%string then
    c.line x y (x - size) y ;;
    c.line x y x (y - size) ;;
    c.arc (x - size) (y - size) x y 0 90
  else if (position =? "bl")%string then
    c.line x y (x + size) y ;;
    c.line x y x (y + size) ;;
    c.arc x y (x + size) (y + size) 180 90
  else if (position =? "br")%string then
    c.line x y (x - size) y ;;
    c.line x y x (y + size) ;;
    c.arc (x - size) y x (y + size) 270 90
  else ret tt.

Definition draw_section_header (x y width : Q) (title : string)
    (icon : option string) : M Q :=
  c.setFont "Helvetica-Bold" 12 ;;
  c.setFillColor DARK_GRAY ;;
  c.drawString (x + 12) y title ;;
  c.setStrokeColor MED_GRAY ;;
  c.setLineWidth 1.5 ;;
  c.line x (y - 5) (x + width) (y - 5) ;;
  draw_corner_flourish x (y + 5) "tl" ;;
  draw_corner_flourish (x + width) (y + 5) "tr" ;;
  ret (y - 15).

Definition draw_ruled_lines (x y width : Q) (num_lines : Z)
    (line_height : Q) : M Q :=
  c.setStrokeColor LIGHT_GRAY ;;
  c.setLineWidth 0.5 ;;
  c.setDash [2; 2] ;;
  Py.for_ (Py.range num_lines) (fun i =>
    let line_y := y - (#i * line_height) in
    c.line x line_y (x + width) line_y) ;;
  c.setDash [] ;;
  ret (y - (#num_lines * line_height)).

Definition draw_checkbox (x y : Q) (size : Q) : M unit :=
  c.setStrokeColor MED_GRAY ;;
  c.setLineWidth 0.75 ;;
  c.rect x (y - size + 2) size size.

Definition draw_decorative_frame (x y width height : Q)
    (style : string) : M unit :=
  c.setStrokeColor MED_GRAY ;;
  c.setLineWidth 1 ;;
  c.rect x (y - height) width height ;;
  draw_corner_flourish x y "tl" ;;
  draw_corner_flourish (x + width) y "tr" ;;
  draw_corner_flourish x (y - height) "bl" ;;
  draw_corner_flourish (x + width) (y - height) "br".

Definition draw_sword_divider (x y width : Q) : M unit :=
  c.setStrokeColor MED_GRAY ;;
  c.setLineWidth 0.75 ;;
  let mid := x + width / 2 in
  c.line (x + 20) y (mid - 15) y ;;
  c.line (mid + 15) y (x + width - 20) y ;;
  c.line (mid - 12) y (mid + 12) y ;;
  c.line (mid - 3) (y - 3) (mid - 3) (y + 3) ;;
  c.line (mid + 3) (y - 3) (mid + 3) (y + 3) ;;
  c.circle mid y 2 0.

(** *** The page composers

    Each composer is given twice: [f_cursor] is the body of [f] and yields
    the value its local [y] holds when the body ends; [f] is the routine
    itself, which returns nothing. *)

Definition draw_page1_overview_cursor : M Q :=
  let page_width := RM2_WIDTH in
  let content_width := page_width - 2 * MARGIN in
  c.bookmarkPage "page1" ;;
  y <- draw_nav_bar page_width 0 ;;
  let y := y - 10 in
  draw_decorative_frame MARGIN y content_width 45 "banner" ;;
  c.setFont "Helvetica-Bold" 11 ;;
  c.setFillColor DARK_GRAY ;;
  c.drawString (MARGIN + 10) (y - 12) "Campaign:" ;;
  c.setStrokeColor LIGHT_GRAY ;;
  c.setLineWidth 0.5 ;;
  c.line (MARGIN + 70) (y - 16) (content_width + MARGIN - 10) (y - 16) ;;
  c.setFont "Helvetica-Bold" 10 ;;
  c.drawString (MARGIN + 10) (y - 35) "Session #" ;;
  c.drawString (MARGIN + 150) (y - 35) "Date:" ;;
  c.line (MARGIN + 65) (y - 39) (MARGIN + 130) (y - 39) ;;
  c.line (MARGIN + 180) (y - 39) (MARGIN + 280) (y - 39) ;;
  let y := y - 60 in
  let col_width := (content_width - 10) / 2 in
  let section_start_y := y in
  y <- draw_section_header MARGIN y col_width "Review the Characters" None ;;
  let y := y - 5 in
  y <- Py.for_acc (Py.range 4) y (fun i y =>
    c.setFont "Helvetica" 9 ;;
    c.setFillColor MED_GRAY ;;
    c.drawString (MARGIN + 5) y ("PC " ++ Py.str (i + 1) ++ ":") ;;
    y <- draw_ruled_lines (MARGIN + 35) y (col_width - 35) 2 SMALL_LINE_HEIGHT ;;
    let y := y - 5 in
    ret y) ;;
  let left_col_end_y := y in
  let right_col_x := MARGIN + col_width + 10 in
  let y := section_start_y in
  y <- draw_section_header right_col_x y col_width "Session Recap" None ;;
  let y := y - 5 in
  y <- draw_ruled_lines (right_col_x + 5) y (col_width - 10) 9 SMALL_LINE_HEIGHT ;;
  let y := Py.min left_col_end_y y in
  let y := y - 10 in
  y <- draw_section_header MARGIN y content_width "Strong Start" None ;;
  let y := y - 5 in
  let frame_height := 140 in
  draw_decorative_frame MARGIN y content_width frame_height "parchment" ;;
  y <- draw_ruled_lines (MARGIN + 10) (y - 15) (content_width - 20) 10
         SMALL_LINE_HEIGHT ;;
  let y := y - 20 in
  y <- draw_section_header MARGIN y content_width "Story Beats" None ;;
  let y := y - 5 in
  let remaining_height := y - MARGIN - 10 in
  q <- Py.div remaining_height SMALL_LINE_HEIGHT ;;
  let num_lines := Py.int q in
  let col3_width := (content_width - 20) / 3 in
  y <- Py.for_acc (Py.range num_lines) y (fun i y =>
    c.setStrokeColor LIGHT_GRAY ;;
    c.setLineWidth 0.5 ;;
    c.setDash [2; 2] ;;
    c.line (MARGIN + 5) y (MARGIN + col3_width - 5) y ;;
    c.line (MARGIN + col3_width + 10) y (MARGIN + 2 * col3_width + 5) y ;;
    c.line (MARGIN + 2 * col3_width + 15) y (MARGIN + content_width - 5) y ;;
    let y := y - SMALL_LINE_HEIGHT in
    ret y) ;;
  c.setDash [] ;;
  ret y.

Definition draw_page1_overview : M unit :=
  draw_page1_overview_cursor ;; ret tt.

Definition draw_page2_scenes_cursor : M Q :=
  let page_width := RM2_WIDTH in
  let content_width := page_width - 2 * MARGIN in
  c.bookmarkPage "page2" ;;
  y <- draw_nav_bar page_width 1 ;;
  let y := y - 10 in
  y <- draw_section_header MARGIN y content_width "Potential Scenes" None ;;
  let y := y - 5 in
  Py.for_acc (Py.range 7) y (fun i y =>
    c.setFont "Helvetica-Bold" 9 ;;
    c.setFillColor MED_GRAY ;;
    c.drawString (MARGIN + 5) y ("Scene " ++ Py.str (i + 1) ++ ":") ;;
    c.setStrokeColor LIGHT_GRAY ;;
    c.line (MARGIN + 50) (y - 3) (content_width + MARGIN) (y - 3) ;;
    let y := y - 15 in
    y <- draw_ruled_lines (MARGIN + 10) y (content_width - 10) 4 SMALL_LINE_HEIGHT ;;
    let y := y - 8 in
    ret y).

Definition draw_page2_scenes : M unit :=
  draw_page2_scenes_cursor ;; ret tt.

Definition draw_page3_locations_cursor : M Q :=
  let page_width := RM2_WIDTH in
  let content_width := page_width - 2 * MARGIN in
  c.bookmarkPage "page3" ;;
  y <- draw_nav_bar page_width 2 ;;
  let y := y - 10 in
  y <- draw_section_header MARGIN y content_width "Fantastic Locations" None ;;
  let y := y - 5 in
  Py.for_acc (Py.range 8) y (fun i y =>
    c.setFont "Helvetica-Bold" 9 ;;
    c.setFillColor MED_GRAY ;;
    c.drawString (MARGIN + 5) y ("Location " ++ Py.str (i + 1) ++ ":") ;;
    c.setStrokeColor LIGHT_GRAY ;;
    c.line (MARGIN + 65) (y - 3) (content_width + MARGIN) (y - 3) ;;
    let y := y - 15 in
    c.setFont "Helvetica" 8 ;;
    c.setFillColor LIGHT_GRAY ;;
    c.drawString (MARGIN + 10) y "Features:" ;;
    y <- draw_ruled_lines (MARGIN + 55) y (content_width - 55) 3 SMALL_LINE_HEIGHT ;;
    let y := y - 8 in
    ret y).

Definition draw_page3_locations : M unit :=
  draw_page3_locations_cursor ;; ret tt.

Definition draw_page4_secrets_cursor : M Q :=
  let page_width := RM2_WIDTH in
  let content_width := page_width - 2 * MARGIN in
  c.bookmarkPage "page4" ;;
  y <- draw_nav_bar page_width 3 ;;
  let y := y - 10 in
  y <- draw_section_header MARGIN y content_width "Secrets and Clues" None ;;
  let y := y - 5 in
  y <- Py.for_acc (Py.range 10) y (fun i y =>
    draw_checkbox (MARGIN + 5) y 8 ;;
    c.setFont "Helvetica" 9 ;;
    c.setFillColor MED_GRAY ;;
    c.drawString (MARGIN + 18) (y - 6) (Py.str (i + 1) ++ ".") ;;
    y <- draw_ruled_lines (MARGIN + 30) (y - 6) (content_width - 30) 2
           SMALL_LINE_HEIGHT ;;
    let y := y - 5 in
    ret y) ;;
  let y := y - 5 in
  y <- draw_section_header MARGIN y content_width "Loot & Rewards" None ;;
  let y := y - 5 in
  let col_width := (content_width - 10) / 2 in
  let remaining_height := y - MARGIN - 10 in
  q <- Py.div remaining_height SMALL_LINE_HEIGHT ;;
  let num_rows := (Py.int q + 1)%Z in
  y <- Py.for_acc (Py.range num_rows) y (fun i y =>
    c.setStrokeColor LIGHT_GRAY ;;
    c.setLineWidth 0.5 ;;
    c.setDash [2; 2] ;;
    c.line (MARGIN + 5) y (MARGIN + col_width - 5) y ;;
    c.line (MARGIN + col_width + 15) y (MARGIN + content_width - 5) y ;;
    let y := y - SMALL_LINE_HEIGHT in
    ret y) ;;
  c.setDash [] ;;
  ret y.

Definition draw_page4_secrets : M unit :=
  draw_page4_secrets_cursor ;; ret tt.

Definition draw_page5_npcs_cursor : M Q :=
  let page_width := RM2_WIDTH in
  let content_width := page_width - 2 * MARGIN in
  c.bookmarkPage "page5" ;;
  y <- draw_nav_bar page_width 4 ;;
  let y := y - 10 in
  y <- draw_section_header MARGIN y content_width "Important NPCs" None ;;
  let y := y - 5 in
  Py.for_acc (Py.range 4) y (fun i y =>
    let frame_height := 105 in
    draw_decorative_frame MARGIN y content_width frame_height "parchment" ;;
    let inner_y := y - 14 in
    c.setFont "Helvetica-Bold" 9 ;;
    c.setFillColor MED_GRAY ;;
    c.drawString (MARGIN + 8) inner_y "Name:" ;;
    c.setStrokeColor LIGHT_GRAY ;;
    c.setLineWidth 0.5 ;;
    c.setDash [2; 2] ;;
    c.line (MARGIN + 40) (inner_y - 3) (MARGIN + 200) (inner_y - 3) ;;
    c.setFont "Helvetica" 8 ;;
    c.setFillColor MED_GRAY ;;
    c.drawString (MARGIN + 210) inner_y "Faction:" ;;
    c.setStrokeColor LIGHT_GRAY ;;
    c.line (MARGIN + 250) (inner_y - 3) (content_width + MARGIN - 10) (inner_y - 3) ;;
    let inner_y := inner_y - 16 in
    c.drawString (MARGIN + 8) inner_y "Appearance:" ;;
    c.line (MARGIN + 60) (inner_y - 3) (content_width + MARGIN - 10) (inner_y - 3) ;;
    let inner_y := inner_y - 16 in
    c.drawString (MARGIN + 8) inner_y "Motivation:" ;;
    c.line (MARGIN + 55) (inner_y - 3) (content_width + MARGIN - 10) (inner_y - 3) ;;
    let inner_y := inner_y - 16 in
    c.drawString (MARGIN + 8) inner_y "Voice/Quirk:" ;;
    c.line (MARGIN + 58) (inner_y - 3) (content_width + MARGIN - 10) (inner_y - 3) ;;
    let inner_y := inner_y - 16 in
    c.drawString (MARGIN + 8) inner_y "Notes:" ;;
    c.line (MARGIN + 40) (inner_y - 3) (content_width + MARGIN - 10) (inner_y - 3) ;;
    let inner_y := inner_y - 12 in
    c.line (MARGIN + 10) (inner_y - 3) (content_width + MARGIN - 10) (inner_y - 3) ;;
    c.setDash [] ;;
    let y := y - (frame_height + 12) in
    ret y).

Definition draw_page5_npcs : M unit :=
  draw_page5_npcs_cursor ;; ret tt.

Definition draw_initiative_tracker (x y width height : Q)
    (tracker_num : Z) : M unit :=
  draw_decorative_frame x y width height "parchment" ;;
  let inner_y := y - 12 in
  c.setFont "Helvetica-Bold" 9 ;;
  c.setFillColor MED_GRAY ;;
  c.drawString (x + 5) inner_y ("Encounter " ++ Py.str tracker_num ++ ":") ;;
  c.setStrokeColor LIGHT_GRAY ;;
  c.line (x + 70) (inner_y - 3) (x + width - 10) (inner_y - 3) ;;
  let inner_y := inner_y - 18 in
  c.setFont "Helvetica" 7 ;;
  c.setFillColor LIGHT_GRAY ;;
  c.drawString (x + 5) inner_y "Init" ;;
  c.drawString (x + 30) inner_y "Name" ;;
  c.drawString (x + width - 70) inner_y "HP" ;;
  c.drawString (x + width - 30) inner_y "Notes" ;;
  let inner_y := inner_y - 10 in
  Py.for_acc (Py.range 12) inner_y (fun i inner_y =>
    c.setStrokeColor LIGHT_GRAY ;;
    c.setLineWidth 0.5 ;;
    c.setDash [1; 2] ;;
    c.rect (x + 5) (inner_y - 10) 18 12 ;;
    c.line (x + 28) (inner_y - 8) (x + width - 75) (inner_y - 8) ;;
    Py.for_ (Py.range 5) (fun j =>
      c.rect (x + width - 70 + (#j * 10)) (inner_y - 10) 8 10) ;;
    c.line (x + width - 18) (inner_y - 8) (x + width - 5) (inner_y - 8) ;;
    let inner_y := inner_y - 12 in
    ret inner_y) ;;
  c.setDash [].

Definition draw_page6_combat_cursor : M Q :=
  let page_width := RM2_WIDTH in
  let content_width := page_width - 2 * MARGIN in
  c.bookmarkPage "page6" ;;
  y <- draw_nav_bar page_width 5 ;;
  let y := y - 10 in
  y <- draw_section_header MARGIN y content_width "Initiative Trackers" None ;;
  let y := y - 5 in
  let tracker_width := (content_width - 10) / 2 in
  let tracker_height := 195 in
  draw_initiative_tracker MARGIN y tracker_width tracker_height 1 ;;
  draw_initiative_tracker (MARGIN + tracker_width + 10) y tracker_width
    tracker_height 2 ;;
  let y := y - (tracker_height + 10) in
  draw_initiative_tracker MARGIN y tracker_width tracker_height 3 ;;
  draw_initiative_tracker (MARGIN + tracker_width + 10) y tracker_width
    tracker_height 4 ;;
  let y := y - (tracker_height + 15) in
  y <- draw_section_header MARGIN y content_width "Monsters Reference" None ;;
  let y := y - 5 in
  let col_width := (content_width - 10) / 2 in
  c.setFont "Helvetica" 8 ;;
  c.setFillColor LIGHT_GRAY ;;
  c.drawString (MARGIN + 5) y "Monster" ;;
  c.drawString (MARGIN + col_width - 40) y "Page" ;;
  c.drawString (MARGIN + col_width + 15) y "Monster" ;;
  c.drawString (MARGIN + content_width - 35) y "Page" ;;
  let y := y - 14 in
  y <- Py.for_acc (Py.range 4) y (fun i y =>
    c.setStrokeColor LIGHT_GRAY ;;
    c.setLineWidth 0.5 ;;
    c.setDash [2; 2] ;;
    c.line (MARGIN + 5) y (MARGIN + col_width - 50) y ;;
    c.line (MARGIN + col_width - 45) y (MARGIN + col_width - 5) y ;;
    c.line (MARGIN + col_width + 15) y (MARGIN + content_width - 45) y ;;
    c.line (MARGIN + content_width - 40) y (MARGIN + content_width - 5) y ;;
    let y := y - 12 in
    ret y) ;;
  c.setDash [] ;;
  ret y.

Definition draw_page6_combat : M unit :=
  draw_page6_combat_cursor ;; ret tt.

Definition draw_page7_notes_cursor : M Q :=
  let page_width := RM2_WIDTH in
  let content_width := page_width - 2 * MARGIN in
  c.bookmarkPage "page7" ;;
  y <- draw_nav_bar page_width 6 ;;
  let y := y - 10 in
  y <- draw_section_header MARGIN y content_width "Session Notes" None ;;
  let y := y - 5 in
  let remaining_height := y - MARGIN - 10 in
  q <- Py.div remaining_height SMALL_LINE_HEIGHT ;;
  let num_lines := Py.int q in
  draw_ruled_lines (MARGIN + 5) y (content_width - 10) num_lines
    SMALL_LINE_HEIGHT ;;
  ret y.

Definition draw_page7_notes : M unit :=
  draw_page7_notes_cursor ;; ret tt.

(** *** Document assembly *)

(** The four [print] calls that end the routine write a summary to the
    console and are left out. *)
Definition create_lazy_dm_template (mt : Metrics) (fname : string)
    : result Document :=
  with_canvas mt fname (RM2_WIDTH, RM2_HEIGHT) (
    draw_page1_overview ;;
    c.showPage ;;
    draw_page2_scenes ;;
    c.showPage ;;
    draw_page3_locations ;;
    c.showPage ;;
    draw_page4_secrets ;;
    c.showPage ;;
    draw_page5_npcs ;;
    c.showPage ;;
    draw_page6_combat ;;
    c.showPage ;;
    draw_page7_notes ;;
    c.save).

Definition default_filename : string := "lazy_dm_session_template.pdf".

End LazyDM.

(** ** faction_template.py *)

Module Faction.

Definition RM2_WIDTH : Q := 1404 * 72 / 226.
Definition RM2_HEIGHT : Q := 1872 * 72 / 226.

Definition LIGHT_GRAY := MkColor 0.8 0.8 0.8.
Definition MED_GRAY := MkColor 0.6 0.6 0.6.
Definition DARK_GRAY := MkColor 0.3 0.3 0.3.

Definition MARGIN : Q := 20.
Definition LINE_HEIGHT : Q := 14.
Definition SMALL_LINE_HEIGHT : Q := 12.

Definition draw_corner_flourish (x y : Q) (position : string) : M unit :=
  c.setStrokeColor MED_GRAY ;;
  c.setLineWidth 0.75 ;;
  let size := 8 in
  if (position =? "tl")%string then
    c.line x y (x + size) y ;;
    c.line x y x (y - size) ;;
    c.arc x (y - size) (x + size) y 90 90
  else if (position =? "tr")%string then
    c.line x y (x - size) y ;;
    c.line x y x (y - size) ;;
    c.arc (x - size) (y - size) x y 0 90
  else if (position =? "bl")%string then
    c.line x y (x + size) y ;;
    c.line x y x (y + size) ;;
    c.arc x y (x + size) (y + size) 180 90
  else if (position =? "br")%string then
    c.line x y (x - size) y ;;
    c.line x y x (y + size) ;;
    c.arc (x - size) y x (y + size) 270 90
  else ret tt.

Definition draw_decorative_frame (x y width height : Q) : M unit :=
  c.setStrokeColor MED_GRAY ;;
  c.setLineWidth 1 ;;
  c.rect x (y - height) width height ;;
  draw_corner_flourish x y "tl" ;;
  draw_corner_flourish (x + width) y "tr" ;;
  draw_corner_flourish x (y - height) "bl" ;;
  draw_corner_flourish (x + width) (y - height) "br".

Definition draw_section_header (x y width : Q) (title : string) : M Q :=
  c.setFont "Helvetica-Bold" 11 ;;
  c.setFillColor DARK_GRAY ;;
  c.drawString (x + 12) y title ;;
  c.setStrokeColor MED_GRAY ;;
  c.setLineWidth 1.5 ;;
  c.line x (y - 5) (x + width) (y - 5) ;;
  draw_corner_flourish x (y + 5) "tl" ;;
  draw_corner_flourish (x + width) (y + 5) "tr" ;;
  ret (y - 15).

Definition draw_ruled_lines (x y width : Q) (num_lines : Z)
    (line_height : Q) : M Q :=
  c.setStrokeColor LIGHT_GRAY ;;
  c.setLineWidth 0.5 ;;
  c.setDash [2; 2] ;;
  Py.for_ (Py.range num_lines) (fun i =>
    let line_y := y - (#i * line_height) in
    c.line x line_y (x + width) line_y) ;;
  c.setDash [] ;;
  ret (y - (#num_lines * line_height)).

Definition draw_sword_divider (x y width : Q) : M unit :=
  c.setStrokeColor MED_GRAY ;;
  c.setLineWidth 0.75 ;;
  let mid := x + width / 2 in
  c.line (x + 20) y (mid - 15) y ;;
  c.line (mid + 15) y (x + width - 20) y ;;
  c.line (mid - 12) y (mid + 12) y ;;
  c.line (mid - 3) (y - 3) (mid - 3) (y + 3) ;;
  c.line (mid + 3) (y - 3) (mid + 3) (y + 3) ;;
  c.circle mid y 2 0.

Definition draw_field_with_label (x y : Q) (label : string)
    (line_start line_end : Q) : M unit :=
  c.setFont "Helvetica" 9 ;;
  c.setFillColor MED_GRAY ;;
  c.drawString x y label ;;
  c.setStrokeColor LIGHT_GRAY ;;
  c.setLineWidth 0.5 ;;
  c.setDash [2; 2] ;;
  c.line line_start (y - 3) line_end (y - 3) ;;
  c.setDash [].

Definition progress_labels : list string :=
  ["Nascent"; "Emerging"; "Advancing"; "Imminent"; "Complete"]%string.

Definition draw_progress_clock (x y width : Q) : M unit :=
  let scale_width := width - 20 in
  let start_x := x + 10 in
  let labels := progress_labels in
  let num_labels := Py.len labels in
  segment_width <- Py.div scale_width #(num_labels - 1) ;;
  c.setStrokeColor MED_GRAY ;;
  c.setLineWidth 1 ;;
  c.line start_x y (start_x + scale_width) y ;;
  c.setFont "Helvetica" 8 ;;
  c.setFillColor MED_GRAY ;;
  Py.for_ (Py.enumerate labels) (fun '(i, label) =>
    let tick_x := start_x + #i * segment_width in
    c.line tick_x (y - 5) tick_x (y + 5) ;;
    label_width <- c.stringWidth label "Helvetica" 8 ;;
    c.drawString (tick_x - label_width / 2) (y - 16) label) ;;
  c.setStrokeColor LIGHT_GRAY ;;
  c.setLineWidth 0.5 ;;
  let minor_ticks := 3%Z in
  Py.for_ (Py.range (num_labels - 1)) (fun i =>
    Py.for_ (Py.range2 1 (minor_ticks + 1)) (fun j =>
      q <- Py.div segment_width #(minor_ticks + 1) ;;
      let tick_x := start_x + #i * segment_width + #j * q in
      c.line tick_x (y - 3) tick_x (y + 3))).

Definition disposition_labels : list string :=
  ["Hostile"; "Wary"; "Neutral"; "Friendly"; "Allied"]%string.

Definition draw_disposition_scale (x y width : Q) : M unit :=
  let scale_width := width - 20 in
  let start_x := x + 10 in
  let labels := disposition_labels in
  let num_labels := Py.len labels in
  segment_width <- Py.div scale_width #(num_labels - 1) ;;
  c.setStrokeColor MED_GRAY ;;
  c.setLineWidth 1 ;;
  c.line start_x y (start_x + scale_width) y ;;
  c.setFont "Helvetica" 8 ;;
  c.setFillColor MED_GRAY ;;
  Py.for_ (Py.enumerate labels) (fun '(i, label) =>
    let tick_x := start_x + #i * segment_width in
    c.line tick_x (y - 5) tick_x (y + 5) ;;
    label_width <- c.stringWidth label "Helvetica" 8 ;;
    c.drawString (tick_x - label_width / 2) (y - 16) label) ;;
  c.setStrokeColor LIGHT_GRAY ;;
  c.setLineWidth 0.5 ;;
  let minor_ticks := 3%Z in
  Py.for_ (Py.range (num_labels - 1)) (fun i =>
    Py.for_ (Py.range2 1 (minor_ticks + 1)) (fun j =>
      q <- Py.div segment_width #(minor_ticks + 1) ;;
      let tick_x := start_x + #i * segment_width + #j * q in
      c.line tick_x (y - 3) tick_x (y + 3))).

(** *** The page composers, with [f_cursor] and [f] as above *)

Definition draw_faction_page_cursor (page_num : Z) : M Q :=
  let page_width := RM2_WIDTH in
  let content_width := page_width - 2 * MARGIN in
  let y := RM2_HEIGHT - MARGIN in
  let header_height := 35 in
  draw_decorative_frame MARGIN y content_width header_height ;;
  c.setFont "Helvetica-Bold" 14 ;;
  c.setFillColor DARK_GRAY ;;
  c.drawString (MARGIN + 10) (y - 15) "FACTION:" ;;
  c.setStrokeColor LIGHT_GRAY ;;
  c.setLineWidth 0.5 ;;
  c.setDash [2; 2] ;;
  c.line (MARGIN + 75) (y - 19) (content_width - 100) (y - 19) ;;
  c.setFont "Helvetica" 9 ;;
  c.setFillColor MED_GRAY ;;
  c.drawString (content_width - 85) (y - 15) "Alignment:" ;;
  c.line (content_width - 30) (y - 19) (content_width + MARGIN - 10) (y - 19) ;;
  c.setDash [] ;;
  let y := y - (header_height + 15) in
  y <- draw_section_header MARGIN y content_width "Core Identity" ;;
  let y := y - 5 in
  draw_field_with_label (MARGIN + 5) y "Leader/Key Figure:"
    (MARGIN + 100) (content_width + MARGIN - 5) ;;
  let y := y - 18 in
  draw_field_with_label (MARGIN + 5) y "Primary Location:"
    (MARGIN + 95) (content_width + MARGIN - 5) ;;
  let y := y - 18 in
  c.setFont "Helvetica" 9 ;;
  c.setFillColor MED_GRAY ;;
  c.drawString (MARGIN + 5) y "Goal (What They Want):" ;;
  let y := y - 12 in
  y <- draw_ruled_lines (MARGIN + 10) y (content_width - 15) 4 SMALL_LINE_HEIGHT ;;
  let y := y - 8 in
  c.setFont "Helvetica" 9 ;;
  c.setFillColor MED_GRAY ;;
  c.drawString (MARGIN + 5) y "Resources:" ;;
  let y := y - 15 in
  let box_size := 10 in
  let box_spacing := 3 in
  let label_width_max := 55 in
  let col_width := (content_width - 10) / 2 in
  c.setFont "Helvetica" 8 ;;
  c.setFillColor MED_GRAY ;;
  c.drawString (MARGIN + 10) y "Troops:" ;;
  let box_start_x := MARGIN + label_width_max in
  Py.for_ (Py.range 5) (fun j =>
    c.setStrokeColor MED_GRAY ;;
    c.setLineWidth 0.75 ;;
    c.rect (box_start_x + #j * (box_size + box_spacing)) (y - 2) box_size box_size) ;;
  c.setFillColor MED_GRAY ;;
  c.drawString (MARGIN + col_width + 10) y "Magic:" ;;
  let box_start_x_right := MARGIN + col_width + label_width_max - 5 in
  Py.for_ (Py.range 5) (fun j =>
    c.setStrokeColor MED_GRAY ;;
    c.setLineWidth 0.75 ;;
    c.rect (box_start_x_right + #j * (box_size + box_spacing)) (y - 2)
      box_size box_size) ;;
  let y := y - 16 in
  c.setFont "Helvetica" 8 ;;
  c.setFillColor MED_GRAY ;;
  c.drawString (MARGIN + 10) y "Money:" ;;
  let box_start_x := MARGIN + label_width_max in
  Py.for_ (Py.range 5) (fun j =>
    c.setStrokeColor MED_GRAY ;;
    c.setLineWidth 0.75 ;;
    c.rect (box_start_x + #j * (box_size + box_spacing)) (y - 2) box_size box_size) ;;
  c.setFillColor MED_GRAY ;;
  c.drawString (MARGIN + col_width + 10) y "Influence:" ;;
  let box_start_x_right := MARGIN + col_width + label_width_max - 5 in
  Py.for_ (Py.range 5) (fun j =>
    c.setStrokeColor MED_GRAY ;;
    c.setLineWidth 0.75 ;;
    c.rect (box_start_x_right + #j * (box_size + box_spacing)) (y - 2)
      box_size box_size) ;;
  let y := y - 16 in
  let y := y - 5 in
  c.setFont "Helvetica" 8 ;;
  c.setFillColor LIGHT_GRAY ;;
  c.drawString (MARGIN + 10) y "Notes:" ;;
  let y := y - 10 in
  y <- draw_ruled_lines (MARGIN + 10) y (content_width - 15) 3 SMALL_LINE_HEIGHT ;;
  let y := y - 10 in
  y <- draw_section_header MARGIN y content_width "Current Activity" ;;
  let y := y - 5 in
  let frame_height := 65 in
  draw_decorative_frame MARGIN y content_width frame_height ;;
  c.setFont "Helvetica" 9 ;;
  c.setFillColor MED_GRAY ;;
  c.drawString (MARGIN + 8) (y - 12) "Current Plan/Front:" ;;
  y_inner <- draw_ruled_lines (MARGIN + 10) (y - 22) (content_width - 20) 3
               SMALL_LINE_HEIGHT ;;
  let y := y - (frame_height + 12) in
  c.setFont "Helvetica" 9 ;;
  c.setFillColor MED_GRAY ;;
  c.drawString (MARGIN + 5) y "Progress Clock:" ;;
  let y := y - 22 in
  draw_progress_clock MARGIN y content_width ;;
  let y := y - 38 in
  y <- draw_section_header MARGIN y content_width "Notes" ;;
  let y := y - 5 in
  draw_ruled_lines (MARGIN + 5) y (content_width - 10) 5 SMALL_LINE_HEIGHT ;;
  ret y.

Definition draw_faction_page (page_num : Z) : M unit :=
  draw_faction_page_cursor page_num ;; ret tt.

Definition draw_faction_page_2_cursor : M Q :=
  let page_width := RM2_WIDTH in
  let content_width := page_width - 2 * MARGIN in
  let y := RM2_HEIGHT - MARGIN in
  y <- draw_section_header MARGIN y content_width "Relationships" ;;
  let y := y - 5 in
  c.setFont "Helvetica" 9 ;;
  c.setFillColor MED_GRAY ;;
  c.drawString (MARGIN + 5) y "Disposition Toward PCs:" ;;
  let y := y - 25 in
  draw_disposition_scale MARGIN y content_width ;;
  let y := y - 35 in
  c.setFont "Helvetica" 9 ;;
  c.setFillColor MED_GRAY ;;
  c.drawString (MARGIN + 5) y "Connections to Other Factions:" ;;
  let y := y - 15 in
  let col_width := (content_width - 20) / 2 in
  y <- Py.for_acc (Py.range 4) y (fun i y =>
    c.setFont "Helvetica" 8 ;;
    c.setFillColor LIGHT_GRAY ;;
    c.drawString (MARGIN + 10) y "Faction:" ;;
    c.drawString (MARGIN + col_width + 10) y "Relationship:" ;;
    c.setStrokeColor LIGHT_GRAY ;;
    c.setLineWidth 0.5 ;;
    c.setDash [2; 2] ;;
    c.line (MARGIN + 50) (y - 3) (MARGIN + col_width) (y - 3) ;;
    c.line (MARGIN + col_width + 70) (y - 3) (content_width + MARGIN - 5) (y - 3) ;;
    c.setDash [] ;;
    let y := y - 14 in
    ret y) ;;
  let y := y - 15 in
  y <- draw_section_header MARGIN y content_width "Intelligence" ;;
  let y := y - 5 in
  c.setFont "Helvetica" 9 ;;
  c.setFillColor MED_GRAY ;;
  c.drawString (MARGIN + 5) y "Known Agents/NPCs:" ;;
  let y := y - 15 in
  y <- Py.for_acc (Py.range 5) y (fun i y =>
    c.setFont "Helvetica" 8 ;;
    c.setFillColor LIGHT_GRAY ;;
    c.drawString (MARGIN + 10) y "Name:" ;;
    c.drawString (MARGIN + col_width - 20) y "Role:" ;;
    c.setStrokeColor LIGHT_GRAY ;;
    c.setLineWidth 0.5 ;;
    c.setDash [2; 2] ;;
    c.line (MARGIN + 45) (y - 3) (MARGIN + col_width - 30) (y - 3) ;;
    c.line (MARGIN + col_width + 5) (y - 3) (content_width + MARGIN - 5) (y - 3) ;;
    c.setDash [] ;;
    let y := y - 14 in
    ret y) ;;
  let y := y - 10 in
  let col_width_half := (content_width - 15) / 2 in
  c.setFont "Helvetica" 9 ;;
  c.setFillColor MED_GRAY ;;
  c.drawString (MARGIN + 5) y "Strengths:" ;;
  c.drawString (MARGIN + col_width_half + 15) y "Weaknesses:" ;;
  let y := y - 12 in
  y <- Py.for_acc (Py.range 5) y (fun i y =>
    c.setStrokeColor LIGHT_GRAY ;;
    c.setLineWidth 0.5 ;;
    c.setDash [2; 2] ;;
    c.line (MARGIN + 10) y (MARGIN + col_width_half) y ;;
    c.line (MARGIN + col_width_half + 15) y (content_width + MARGIN - 5) y ;;
    c.setDash [] ;;
    let y := y - SMALL_LINE_HEIGHT in
    ret y) ;;
  let y := y - 10 in
  y <- draw_section_header MARGIN y content_width "Notes" ;;
  let y := y - 5 in
  q <- Py.div (y - MARGIN - 10) SMALL_LINE_HEIGHT ;;
  let remaining_lines := Py.int q in
  draw_ruled_lines (MARGIN + 5) y (content_width - 10) remaining_lines
    SMALL_LINE_HEIGHT ;;
  ret y.

Definition draw_faction_page_2 : M unit :=
  draw_faction_page_2_cursor ;; ret tt.

(** *** Document assembly; the four [print] calls are left out as above. *)

Definition create_faction_template (mt : Metrics) (fname : string)
    : result Document :=
  with_canvas mt fname (RM2_WIDTH, RM2_HEIGHT) (
    draw_faction_page 1 ;;
    c.showPage ;;
    draw_faction_page_2 ;;
    c.save).

Definition default_filename : string := "faction_tracking_template.pdf".

End Faction.

(** ** Reading a run *)

(** The value a run returned, if it returned. *)
Definition value_of {A} (r : result (A * list call)) : option A :=
  match r with
  | Ok (a, _) => Some a
  | Raise _ => None
  end.

(** The calls a run made on the canvas, if it returned. *)
Definition trace_of {A} (r : result (A * list call)) : option (list call) :=
  match r with
  | Ok (_, ops) => Some ops
  | Raise _ => None
  end.

(** The [c.line] calls of a trace, as [(x1, y1, x2, y2)]. *)
Definition lines_of (ops : list call) : list (Q * Q * Q * Q) :=
  flat_map (fun op =>
    match op with
    | Line x1 y1 x2 y2 => [(x1, y1, x2, y2)]
    | _ => []
    end) ops.

(** The [c.bookmarkPage] keys of a trace. *)
Definition bookmarks_of (ops : list call) : list string :=
  flat_map (fun op =>
    match op with
    | BookmarkPage key => [key]
    | _ => []
    end) ops.

(** The [c.linkRect] calls of a trace: destination and rectangle. *)
Definition links_of (ops : list call) : list (string * (Q * Q * Q * Q)) :=
  flat_map (fun op =>
    match op with
    | LinkRect _ dest r _ => [(dest, r)]
    | _ => []
    end) ops.

(** The lowest y-coordinate a drawing call touches: an end of a line, an
    edge of a box, arc or link rectangle, the bottom of a circle, the
    baseline of a text.  Calls that draw nothing have none. *)
Definition lowest_y (op : call) : option Q :=
  match op with
  | Line _ y1 _ y2 => Some (Py.min y1 y2)
  | Rect _ y _ height => Some (Py.min y (y + height))
  | Arc _ y1 _ y2 _ _ => Some (Py.min y1 y2)
  | Circle _ y_cen r _ => Some (y_cen - r)
  | DrawString _ y _ => Some y
  | DrawCentredString _ y _ => Some y
  | LinkRect _ _ (_, y1, _, y2) _ => Some (Py.min y1 y2)
  | _ => None
  end.

(** No call of the trace draws below [bottom]. *)
Definition drawn_above (bottom : Q) (ops : list call) : bool :=
  forallb (fun op =>
    match lowest_y op with
    | Some y => Qle_bool bottom y
    | None => true
    end) ops.

(** *** The backend's graphics state and pages

    The canvas keeps a current stroke and fill colour, line width, dash
    pattern and font; the setters replace them, and [showPage] starts the
    next page from the initial state. *)

Record GState : Type := mkGState {
  strokeColor : Color;
  fillColor : Color;
  lineWidth : Q;
  dash : list Q;
  fontName : string;
  fontSize : Q
}.

Definition initial_gstate : GState :=
  mkGState (MkColor 0 0 0) (MkColor 0 0 0) 1 [] "Helvetica" 12.

Definition exec (g : GState) (op : call) : GState :=
  match op with
  | SetStrokeColor col =>
      mkGState col (fillColor g) (lineWidth g) (dash g) (fontName g) (fontSize g)
  | SetFillColor col =>
      mkGState (strokeColor g) col (lineWidth g) (dash g) (fontName g) (fontSize g)
  | SetLineWidth w =>
      mkGState (strokeColor g) (fillColor g) w (dash g) (fontName g) (fontSize g)
  | SetDash p =>
      mkGState (strokeColor g) (fillColor g) (lineWidth g) p (fontName g) (fontSize g)
  | SetFont name size =>
      mkGState (strokeColor g) (fillColor g) (lineWidth g) (dash g) name size
  | ShowPage => initial_gstate
  | _ => g
  end.

(** The graphics state after a trace, started in [g]. *)
Definition run (g : GState) (ops : list call) : GState :=
  fold_left exec ops g.

(** The texts a trace draws with [drawCentredString], each with the font
    and fill colour in force when it is drawn. *)
Fixpoint centred_texts (g : GState) (ops : list call)
    : list (string * (string * Color)) :=
  match ops with
  | [] => []
  | DrawCentredString _ _ text :: ops' =>
      (text, (fontName g, fillColor g)) :: centred_texts g ops'
  | op :: ops' => centred_texts (exec g op) ops'
  end.

(** A call that writes into the content of the page in progress; a
    bookmark and a link rectangle are kept beside the page, not in it. *)
Definition page_content (op : call) : bool :=
  match op with
  | BookmarkPage _ | LinkRect _ _ _ _ | ShowPage | Save => false
  | _ => true
  end.

(** The pages of a saved document: [showPage] closes the page in
    progress, [save] closes it too when it holds any content and then
    writes the file; calls made after [save] are not read.  A trace that
    is never saved gives no document ([None]). *)
Fixpoint pages_from (cur : list call) (ops : list call)
    : option (list (list call)) :=
  match ops with
  | [] => None
  | ShowPage :: ops' => option_map (cons (rev cur)) (pages_from [] ops')
  | Save :: _ => Some (if existsb page_content cur then [rev cur] else [])
  | op :: ops' => pages_from (op :: cur) ops'
  end.

Definition pages_of (ops : list call) : list (list call) :=
  match pages_from [] ops with
  | Some pages => pages
  | None => []
  end.

(** The [c.drawString] calls of a trace, as [(x, y, text)]. *)
Definition strings_of (ops : list call) : list (Q * Q * string) :=
  flat_map (fun op =>
    match op with
    | DrawString x y text => [(x, y, text)]
    | _ => []
    end) ops.

(** The [c.drawCentredString] calls of a trace, as [(x, y, text)]. *)
Definition centred_strings_of (ops : list call) : list (Q * Q * string) :=
  flat_map (fun op =>
    match op with
    | DrawCentredString x y text => [(x, y, text)]
    | _ => []
    end) ops.

(** *** The scale widgets, as the specification words them *)

Module Scale.
(** A scale drawn at [(x, y)] over [width] starts 10 in from the left and
    spans [width - 20]. *)
Definition start_x (x : Q) : Q := x + 10.
Definition scale_width (width : Q) : Q := width - 20.

(** Major tick [i]: start + index * (axis length / 4). *)
Definition major_x (x width : Q) (i : Z) : Q :=
  start_x x + #i * (scale_width width / 4).

(** Minor tick [j] of segment [i]. *)
Definition minor_x (x width : Q) (i j : Z) : Q :=
  let segment_width := scale_width width / 4 in
  start_x x + #i * segment_width + #j * (segment_width / 4).

Definition axis (x y width : Q) : Q * Q * Q * Q :=
  (start_x x, y, start_x x + scale_width width, y).

Definition major_tick (x y width : Q) (i : Z) : Q * Q * Q * Q :=
  (major_x x width i, y - 5, major_x x width i, y + 5).

Definition minor_tick (x y width : Q) (ij : Z * Z) : Q * Q * Q * Q :=
  (minor_x x width (fst ij) (snd ij), y - 3,
   minor_x x width (fst ij) (snd ij), y + 3).

(** The five major ticks and the twelve minor ones, in drawing order. *)
Definition major_indices : list Z := [0; 1; 2; 3; 4]%Z.
Definition minor_indices : list (Z * Z) :=
  flat_map (fun i => map (fun j => (i, j)) [1; 2; 3]%Z) [0; 1; 2; 3]%Z.

(** The label of major tick [i], centred under it. *)
Definition label (mt : Metrics) (x y width : Q) (il : Z * string)
    : Q * Q * string :=
  (major_x x width (fst il) - mt (snd il) "Helvetica"%string 8 / 2, y - 16, snd il).

(** A call with what is particular to a label taken out: the text of a
    [drawString] and its x-offset. *)
Definition geometry (op : call) : call :=
  match op with
  | DrawString _ y _ => DrawString 0 y ""
  | _ => op
  end.
End Scale.

(** *** The navigation bar without its styling *)

(** A call with its font and fill colour blanked. *)
Definition blank_style (op : call) : call :=
  match op with
  | SetFillColor _ => SetFillColor (MkColor 0 0 0)
  | SetFont _ _ => SetFont "" 0
  | _ => op
  end.

(** What [draw_ruled_lines] does to the canvas: the three style calls, one
    [line] per index of [range(num_lines)], and the dash reset. *)
Definition ruled_lines_trace (stroke : Color) (x y width : Q) (num_lines : Z)
    (line_height : Q) : list call :=
  [SetStrokeColor stroke; SetLineWidth 0.5; SetDash [2; 2]]
  ++ map (fun i => Line x (y - #i * line_height) (x + width) (y - #i * line_height))
       (Py.range num_lines)
  ++ [SetDash []].

(** What [draw_nav_bar] issues for one entry of [enumerate(PAGES)]: the
    style of the label, the label, its link. *)
Definition nav_label_trace (page_width : Q) (current_page_idx : Z)
    (entry : Z * string) : list call :=
  let y := LazyDM.RM2_HEIGHT - LazyDM.MARGIN - 15 in
  let link_width := (page_width - 2 * LazyDM.MARGIN) / 7 in
  let x := LazyDM.MARGIN + #(fst entry) * link_width + link_width / 2 in
  (if (fst entry =? current_page_idx)%Z
   then [SetFillColor LazyDM.DARK_GRAY; SetFont "Helvetica-Bold" 10]
   else [SetFillColor LazyDM.MED_GRAY; SetFont "Helvetica" 10])
  ++ [DrawCentredString x y (snd entry);
      LinkRect "" ("page" ++ Py.str (fst entry + 1))
        (x - link_width / 2 + 5, y - 5, x + link_width / 2 - 5, y + 12)
        "[0 0 0]"].

Definition nav_bar_trace (page_width : Q) (current_page_idx : Z) : list call :=
  let y := LazyDM.RM2_HEIGHT - LazyDM.MARGIN - 15 in
  [SetStrokeColor LazyDM.MED_GRAY; SetLineWidth 1;
   Line LazyDM.MARGIN (y - 8) (page_width - LazyDM.MARGIN) (y - 8);
   Line LazyDM.MARGIN (y + 12) (page_width - LazyDM.MARGIN) (y + 12)]
  ++ flat_map (nav_label_trace page_width current_page_idx)
       (Py.enumerate LazyDM.PAGES).

(** A run returns, and whatever graphics state it started in, the dash
    pattern it leaves is the solid one. *)
Definition leaves_solid {A} (r : result (A * list call)) : Prop :=
  match r with
  | Ok (_, ops) => forall g, dash (run g ops) = []
  | Raise _ => False
  end.

(** The labels of the navigation bar as page [i] (counted from 0) is to
    show them: label [i] in the current-page style, the others regular. *)
Definition nav_labels_on_page (i : Z) : list (string * (string * Color)) :=
  map (fun '(j, page_name) =>
         (page_name,
          if (j =? i)%Z then ("Helvetica-Bold"%string, LazyDM.DARK_GRAY)
          else ("Helvetica"%string, LazyDM.MED_GRAY)))
      (Py.enumerate LazyDM.PAGES).

(** The destinations the navigation bar links to, one per entry of
    [PAGES]. *)
Definition nav_destinations : list string :=
  map (fun i => ("page" ++ Py.str (i + 1))%string) (Py.range (Py.len LazyDM.PAGES)).

(** *** Where a call draws, and in what style *)

(** The corner points of what a call strokes or makes clickable: the ends
    of a line, two opposite corners of a box, of the box an arc is
    inscribed in, of the square around a circle, of a link rectangle. *)
Definition stroke_points (op : call) : list (Q * Q) :=
  match op with
  | Line x1 y1 x2 y2 => [(x1, y1); (x2, y2)]
  | Rect x y width height => [(x, y); (x + width, y + height)]
  | Arc x1 y1 x2 y2 _ _ => [(x1, y1); (x2, y2)]
  | Circle x_cen y_cen r _ => [(x_cen - r, y_cen - r); (x_cen + r, y_cen + r)]
  | LinkRect _ _ (x1, y1, x2, y2) _ => [(x1, y1); (x2, y2)]
  | _ => []
  end.

(** The anchor of a text: the start, or the centre, of its baseline. *)
Definition text_points (op : call) : list (Q * Q) :=
  match op with
  | DrawString x y _ => [(x, y)]
  | DrawCentredString x y _ => [(x, y)]
  | _ => []
  end.

Definition points_of (op : call) : list (Q * Q) :=
  stroke_points op ++ text_points op.


(** A height between [y0] and [y1]. *)
Definition between (y0 y1 : Q) (y : Q) : Prop := y0 <= y /\ y <= y1.

Definition inside_b (x0 y0 x1 y1 : Q) (p : Q * Q) : bool :=
  Qle_bool x0 (fst p) && Qle_bool (fst p) x1
  && Qle_bool y0 (snd p) && Qle_bool (snd p) y1.

(** The stroke colour, line width and dash pattern in force at each call
    of a trace that strokes a path, in order. *)
Fixpoint stroke_styles (g : GState) (ops : list call)
    : list (Color * Q * list Q) :=
  match ops with
  | [] => []
  | op :: ops' =>
      match op with
      | Line _ _ _ _ | Rect _ _ _ _ | Arc _ _ _ _ _ _ | Circle _ _ _ _ =>
          (strokeColor g, lineWidth g, dash g) :: stroke_styles g ops'
      | _ => stroke_styles (exec g op) ops'
      end
  end.

(** *** Filling the rest of a page

    [draw_page7_notes] ends by ruling as many lines as fit above
    [MARGIN + 10] (its last three statements); [draw_faction_page_2] ends
    the same way.  Here the cursor [y] they start from is left free. *)

Definition LazyDM_fill_page (x y width : Q) : M Q :=
  let remaining_height := y - LazyDM.MARGIN - 10 in
  q <- Py.div remaining_height LazyDM.SMALL_LINE_HEIGHT ;;
  let num_lines := Py.int q in
  LazyDM.draw_ruled_lines x y width num_lines LazyDM.SMALL_LINE_HEIGHT.

Definition Faction_fill_page (x y width : Q) : M Q :=
  q <- Py.div (y - Faction.MARGIN - 10) Faction.SMALL_LINE_HEIGHT ;;
  let remaining_lines := Py.int q in
  Faction.draw_ruled_lines x y width remaining_lines Faction.SMALL_LINE_HEIGHT.

(** A ruled line from [x] to [x + width], at a height above [low] and at
    most [high]. *)
Definition ruled_between (x width low high : Q) (l : Q * Q * Q * Q) : Prop :=
  let '(x1, y1, x2, y2) := l in
  x1 = x /\ x2 = x + width /\ y1 = y2 /\ low < y1 /\ y1 <= high.



(** The regular style of a navigation label. *)
Definition nav_regular (page_name : string) : string * (string * Color) :=
  (page_name, ("Helvetica"%string, LazyDM.MED_GRAY)).

(** The line width in force at each [c.line] call of a trace that starts
    at abscissa [x], in order. *)
Fixpoint line_widths_at (x : Q) (g : GState) (ops : list call) : list Q :=
  match ops with
  | [] => []
  | Line x1 _ _ _ as op :: ops' =>
      if Qeq_bool x1 x then lineWidth g :: line_widths_at x g ops'
      else line_widths_at x g ops'
  | op :: ops' => line_widths_at x (exec g op) ops'
  end.

(** A call that leaves the dash pattern of the canvas alone. *)
Definition keeps_dash (op : call) : bool :=
  match op with
  | SetDash _ | ShowPage => false
  | _ => true
  end.

(** A run returns, and the dash pattern after it is the one before it. *)
Definition dash_untouched {A} (r : result (A * list call)) : Prop :=
  match r with
  | Ok (_, ops) => forall g, dash (run g ops) = dash g
  | Raise _ => False
  end.

(** A composer's body returns; everything it strokes or makes clickable
    lies in the box from [(margin, margin)] to [(width - margin, top)], and
    every text baseline between [margin] and [top]. *)
Definition keeps_area (width margin top : Q) {A} (r : result (A * list call))
    : Prop :=
  match r with
  | Ok (_, ops) =>
      forallb (inside_b margin margin (width - margin) top)
        (flat_map stroke_points ops) = true
      /\ forallb (fun p => Qle_bool margin (snd p) && Qle_bool (snd p) top)
           (flat_map text_points ops) = true
  | Raise _ => False
  end.

(** A composer's body returns and strokes something above [top]. *)
Definition strokes_above (top : Q) {A} (r : result (A * list call)) : Prop :=
  match r with
  | Ok (_, ops) =>
      forallb (fun p => Qle_bool (snd p) top) (flat_map stroke_points ops)
      = false
  | Raise _ => False
  end.

(** The two other page-filling tails, again with the cursor [y] they
    start from left free: the two columns of rows that end
    [draw_page4_secrets] (one row more than fit above [MARGIN + 10]), and
    the three columns that end [draw_page1_overview]. *)

Definition LazyDM_fill_two_columns (y : Q) : M Q :=
  let page_width := LazyDM.RM2_WIDTH in
  let content_width := page_width - 2 * LazyDM.MARGIN in
  let col_width := (content_width - 10) / 2 in
  let remaining_height := y - LazyDM.MARGIN - 10 in
  q <- Py.div remaining_height LazyDM.SMALL_LINE_HEIGHT ;;
  let num_rows := (Py.int q + 1)%Z in
  y <- Py.for_acc (Py.range num_rows) y (fun i y =>
    c.setStrokeColor LazyDM.LIGHT_GRAY ;;
    c.setLineWidth 0.5 ;;
    c.setDash [2; 2] ;;
    c.line (LazyDM.MARGIN + 5) y (LazyDM.MARGIN + col_width - 5) y ;;
    c.line (LazyDM.MARGIN + col_width + 15) y
      (LazyDM.MARGIN + content_width - 5) y ;;
    let y := y - LazyDM.SMALL_LINE_HEIGHT in
    ret y) ;;
  c.setDash [] ;;
  ret y.

Definition LazyDM_fill_three_columns (y : Q) : M Q :=
  let page_width := LazyDM.RM2_WIDTH in
  let content_width := page_width - 2 * LazyDM.MARGIN in
  let remaining_height := y - LazyDM.MARGIN - 10 in
  q <- Py.div remaining_height LazyDM.SMALL_LINE_HEIGHT ;;
  let num_lines := Py.int q in
  let col3_width := (content_width - 20) / 3 in
  y <- Py.for_acc (Py.range num_lines) y (fun i y =>
    c.setStrokeColor LazyDM.LIGHT_GRAY ;;
    c.setLineWidth 0.5 ;;
    c.setDash [2; 2] ;;
    c.line (LazyDM.MARGIN + 5) y (LazyDM.MARGIN + col3_width - 5) y ;;
    c.line (LazyDM.MARGIN + col3_width + 10) y
      (LazyDM.MARGIN + 2 * col3_width + 5) y ;;
    c.line (LazyDM.MARGIN + 2 * col3_width + 15) y
      (LazyDM.MARGIN + content_width - 5) y ;;
    let y := y - LazyDM.SMALL_LINE_HEIGHT in
    ret y) ;;
  c.setDash [] ;;
  ret y.

(** *** The last thing a page draws

    The statements of each composer that draw last, with the cursor [y]
    (and the index of the block, where there is one) left free; each
    returns the cursor as it stands when its last drawing call returns. *)

(** One block of [draw_page2_scenes], up to its ruled lines. *)
Definition LazyDM_scene_block (i : Z) (y : Q) : M Q :=
  let page_width := LazyDM.RM2_WIDTH in
  let content_width := page_width - 2 * LazyDM.MARGIN in
  c.setFont "Helvetica-Bold" 9 ;;
  c.setFillColor LazyDM.MED_GRAY ;;
  c.drawString (LazyDM.MARGIN + 5) y ("Scene " ++ Py.str (i + 1) ++ ":") ;;
  c.setStrokeColor LazyDM.LIGHT_GRAY ;;
  c.line (LazyDM.MARGIN + 50) (y - 3) (content_width + LazyDM.MARGIN) (y - 3) ;;
  let y := y - 15 in
  LazyDM.draw_ruled_lines (LazyDM.MARGIN + 10) y (content_width - 10) 4
    LazyDM.SMALL_LINE_HEIGHT.

(** One block of [draw_page3_locations], up to its ruled lines. *)
Definition LazyDM_location_block (i : Z) (y : Q) : M Q :=
  let page_width := LazyDM.RM2_WIDTH in
  let content_width := page_width - 2 * LazyDM.MARGIN in
  c.setFont "Helvetica-Bold" 9 ;;
  c.setFillColor LazyDM.MED_GRAY ;;
  c.drawString (LazyDM.MARGIN + 5) y ("Location " ++ Py.str (i + 1) ++ ":") ;;
  c.setStrokeColor LazyDM.LIGHT_GRAY ;;
  c.line (LazyDM.MARGIN + 65) (y - 3) (content_width + LazyDM.MARGIN) (y - 3) ;;
  let y := y - 15 in
  c.setFont "Helvetica" 8 ;;
  c.setFillColor LazyDM.LIGHT_GRAY ;;
  c.drawString (LazyDM.MARGIN + 10) y "Features:" ;;
  LazyDM.draw_ruled_lines (LazyDM.MARGIN + 55) y (content_width - 55) 3
    LazyDM.SMALL_LINE_HEIGHT.

(** One block of [draw_page5_npcs], up to its last line; the cursor does
    not move inside a block. *)
Definition LazyDM_npc_block (y : Q) : M Q :=
  let page_width := LazyDM.RM2_WIDTH in
  let content_width := page_width - 2 * LazyDM.MARGIN in
  let frame_height := 105 in
  LazyDM.draw_decorative_frame LazyDM.MARGIN y content_width frame_height
    "parchment" ;;
  let inner_y := y - 14 in
  c.setFont "Helvetica-Bold" 9 ;;
  c.setFillColor LazyDM.MED_GRAY ;;
  c.drawString (LazyDM.MARGIN + 8) inner_y "Name:" ;;
  c.setStrokeColor LazyDM.LIGHT_GRAY ;;
  c.setLineWidth 0.5 ;;
  c.setDash [2; 2] ;;
  c.line (LazyDM.MARGIN + 40) (inner_y - 3) (LazyDM.MARGIN + 200) (inner_y - 3) ;;
  c.setFont "Helvetica" 8 ;;
  c.setFillColor LazyDM.MED_GRAY ;;
  c.drawString (LazyDM.MARGIN + 210) inner_y "Faction:" ;;
  c.setStrokeColor LazyDM.LIGHT_GRAY ;;
  c.line (LazyDM.MARGIN + 250) (inner_y - 3)
    (content_width + LazyDM.MARGIN - 10) (inner_y - 3) ;;
  let inner_y := inner_y - 16 in
  c.drawString (LazyDM.MARGIN + 8) inner_y "Appearance:" ;;
  c.line (LazyDM.MARGIN + 60) (inner_y - 3)
    (content_width + LazyDM.MARGIN - 10) (inner_y - 3) ;;
  let inner_y := inner_y - 16 in
  c.drawString (LazyDM.MARGIN + 8) inner_y "Motivation:" ;;
  c.line (LazyDM.MARGIN + 55) (inner_y - 3)
    (content_width + LazyDM.MARGIN - 10) (inner_y - 3) ;;
  let inner_y := inner_y - 16 in
  c.drawString (LazyDM.MARGIN + 8) inner_y "Voice/Quirk:" ;;
  c.line (LazyDM.MARGIN + 58) (inner_y - 3)
    (content_width + LazyDM.MARGIN - 10) (inner_y - 3) ;;
  let inner_y := inner_y - 16 in
  c.drawString (LazyDM.MARGIN + 8) inner_y "Notes:" ;;
  c.line (LazyDM.MARGIN + 40) (inner_y - 3)
    (content_width + LazyDM.MARGIN - 10) (inner_y - 3) ;;
  let inner_y := inner_y - 12 in
  c.line (LazyDM.MARGIN + 10) (inner_y - 3)
    (content_width + LazyDM.MARGIN - 10) (inner_y - 3) ;;
  ret y.

(** One row of the monster reference of [draw_page6_combat], up to its
    last line. *)
Definition LazyDM_monster_row (y : Q) : M Q :=
  let page_width := LazyDM.RM2_WIDTH in
  let content_width := page_width - 2 * LazyDM.MARGIN in
  let col_width := (content_width - 10) / 2 in
  c.setStrokeColor LazyDM.LIGHT_GRAY ;;
  c.setLineWidth 0.5 ;;
  c.setDash [2; 2] ;;
  c.line (LazyDM.MARGIN + 5) y (LazyDM.MARGIN + col_width - 50) y ;;
  c.line (LazyDM.MARGIN + col_width - 45) y (LazyDM.MARGIN + col_width - 5) y ;;
  c.line (LazyDM.MARGIN + col_width + 15) y
    (LazyDM.MARGIN + content_width - 45) y ;;
  c.line (LazyDM.MARGIN + content_width - 40) y
    (LazyDM.MARGIN + content_width - 5) y ;;
  ret y.

(** One row of the story beats of [draw_page1_overview], up to its last
    line. *)
Definition LazyDM_beats_row (y : Q) : M Q :=
  let page_width := LazyDM.RM2_WIDTH in
  let content_width := page_width - 2 * LazyDM.MARGIN in
  let col3_width := (content_width - 20) / 3 in
  c.setStrokeColor LazyDM.LIGHT_GRAY ;;
  c.setLineWidth 0.5 ;;
  c.setDash [2; 2] ;;
  c.line (LazyDM.MARGIN + 5) y (LazyDM.MARGIN + col3_width - 5) y ;;
  c.line (LazyDM.MARGIN + col3_width + 10) y
    (LazyDM.MARGIN + 2 * col3_width + 5) y ;;
  c.line (LazyDM.MARGIN + 2 * col3_width + 15) y
    (LazyDM.MARGIN + content_width - 5) y ;;
  ret y.

(** One row of the loot columns of [draw_page4_secrets], up to its last
    line. *)
Definition LazyDM_loot_row (y : Q) : M Q :=
  let page_width := LazyDM.RM2_WIDTH in
  let content_width := page_width - 2 * LazyDM.MARGIN in
  let col_width := (content_width - 10) / 2 in
  c.setStrokeColor LazyDM.LIGHT_GRAY ;;
  c.setLineWidth 0.5 ;;
  c.setDash [2; 2] ;;
  c.line (LazyDM.MARGIN + 5) y (LazyDM.MARGIN + col_width - 5) y ;;
  c.line (LazyDM.MARGIN + col_width + 15) y
    (LazyDM.MARGIN + content_width - 5) y ;;
  ret y.

(** The notes block that ends [draw_faction_page]. *)
Definition Faction_notes_block (y : Q) : M Q :=
  let page_width := Faction.RM2_WIDTH in
  let content_width := page_width - 2 * Faction.MARGIN in
  Faction.draw_ruled_lines (Faction.MARGIN + 5) y (content_width - 10) 5
    Faction.SMALL_LINE_HEIGHT.

(** A call that puts something on the page. *)
Definition draws (op : call) : bool :=
  match lowest_y op with
  | Some _ => true
  | None => false
  end.

(** [l] ends with [suffix]. *)
Definition ends_with {X} (l suffix : list X) : Prop :=
  skipn (List.length l - List.length suffix) l = suffix.

(** The page returns and draws nothing below [bottom]; its calls end with
    those of [last], which draw, followed by [trailing], which do not; and
    the cursor [last] returns, the cursor after the last drawing operation
    of the page, is at or above [bottom]. *)
Definition last_drawing_above (bottom : Q) {A} (page : result (A * list call))
    (last : result (Q * list call)) (trailing : list call) : Prop :=
  match page, last with
  | Ok (_, ops), Ok (r, ops') =>
      drawn_above bottom ops = true
      /\ ends_with ops (ops' ++ trailing)
      /\ existsb draws ops' = true
      /\ existsb draws trailing = false
      /\ bottom <= r
  | _, _ => False
  end.

(** ** The cursor arithmetic in double precision *)

Module Doubles.

Local Open Scope float_scope.

(** The canvas calls the two routines make, with double coordinates. *)
Inductive call : Type :=
| SetStrokeColor (col : Color)
| SetFillColor (col : Color)
| SetLineWidth (w : float)
| SetDash (pattern : list float)
| SetFont (name : string) (size : float)
| Line (x1 y1 x2 y2 : float)
| Arc (x1 y1 x2 y2 startAng extent : float)
| DrawString (x y : float) (text : string).

(** The [c.line] calls of a trace, as [(x1, y1, x2, y2)]. *)
Definition lines_of (ops : list call) : list (float * float * float * float) :=
  flat_map (fun op =>
    match op with
    | Line x1 y1 x2 y2 => [(x1, y1, x2, y2)]
    | _ => []
    end) ops.

(** [float(n)], as Python converts an [int] that meets a [float] in an
    arithmetic operation: the nearest double.  Given for the integers
    between [-2^63] and [2^63], which the hardware conversion covers. *)
Definition float_of_int (n : Z) : float :=
  if (n <? 0)%Z then - of_uint63 (Uint63.of_Z (- n))
  else of_uint63 (Uint63.of_Z n).


(** The rational a finite double stands for. *)
Definition exact (f : float) : option Q :=
  match Prim2SF f with
  | S754_zero _ => Some 0%Q
  | S754_finite s m e => Some (inject_Z (cond_Zopp s (Z.pos m)) * 2 ^ e)%Q
  | _ => None
  end.

(** [draw_corner_flourish], the same in both scripts. *)
Definition draw_corner_flourish (x y : float) (position : string)
    : list call :=
  let size := 8 in
  [SetStrokeColor LazyDM.MED_GRAY; SetLineWidth 0.75]
  ++ if (position =? "tl")%string then
       [Line x y (x + size) y;
        Line x y x (y - size);
        Arc x (y - size) (x + size) y 90 90]
     else if (position =? "tr")%string then
       [Line x y (x - size) y;
        Line x y x (y - size);
        Arc (x - size) (y - size) x y 0 90]
     else if (position =? "bl")%string then
       [Line x y (x + size) y;
        Line x y x (y + size);
        Arc x y (x + size) (y + size) 180 90]
     else if (position =? "br")%string then
       [Line x y (x - size) y;
        Line x y x (y + size);
        Arc (x - size) y x (y + size) 270 90]
     else [].

(** [draw_section_header] of lazy_dm_template.py: the cursor it returns
    and the calls it makes. *)
Definition LazyDM_draw_section_header (x y width : float) (title : string)
    (icon : option string) : float * list call :=
  (y - 15,
   [SetFont "Helvetica-Bold" 12;
    SetFillColor LazyDM.DARK_GRAY;
    DrawString (x + 12) y title;
    SetStrokeColor LazyDM.MED_GRAY;
    SetLineWidth 1.5;
    Line x (y - 5) (x + width) (y - 5)]
   ++ draw_corner_flourish x (y + 5) "tl"
   ++ draw_corner_flourish (x + width) (y + 5) "tr").

(** [draw_section_header] of faction_template.py. *)
Definition Faction_draw_section_header (x y width : float) (title : string)
    : float * list call :=
  (y - 15,
   [SetFont "Helvetica-Bold" 11;
    SetFillColor Faction.DARK_GRAY;
    DrawString (x + 12) y title;
    SetStrokeColor Faction.MED_GRAY;
    SetLineWidth 1.5;
    Line x (y - 5) (x + width) (y - 5)]
   ++ draw_corner_flourish x (y + 5) "tl"
   ++ draw_corner_flourish (x + width) (y + 5) "tr").

(** [draw_ruled_lines], the same in both scripts, called with doubles for
    [y], [width] and [line_height]: the cursor it returns and the calls it
    makes. *)
Definition draw_ruled_lines (x y width : float) (num_lines : Z)
    (line_height : float) : float * list call :=
  (y - (float_of_int num_lines * line_height),
   [SetStrokeColor LazyDM.LIGHT_GRAY; SetLineWidth 0.5; SetDash [2; 2]]
   ++ map (fun i =>
             let line_y := y - (float_of_int i * line_height) in
             Line x line_y (x + width) line_y)
          (Py.range num_lines)
   ++ [SetDash []]).

End Doubles.

(** ** Properties *)

Lemma bind_ok {A B} (m : M A) (k : A -> M B) mt a o1 b o2 :
  m mt = Ok (a, o1) ->
  k a mt = Ok (b, o2) ->
  bind m k mt = Ok (b, o1 ++ o2).
Proof.
  intros Hm Hk. unfold bind. rewrite Hm, Hk. reflexivity.
Qed.

Lemma for_ok {A} (l : list A) (body : A -> M unit) (g : A -> list call) mt :
  (forall a, body a mt = Ok (tt, g a)) ->
  Py.for_ l body mt = Ok (tt, flat_map g l).
Proof.
  intros Hbody. induction l as [|a l IH]; simpl.
  - reflexivity.
  - apply (bind_ok _ _ mt tt (g a) tt (flat_map g l)); auto.
Qed.

Lemma result_ok_inv {A} (r : result A) (P : A -> Prop) :
  match r with Ok a => P a | Raise _ => False end ->
  exists a, r = Ok a /\ P a.
Proof.
  destruct r as [a|e]; [eauto | tauto].
Qed.

Lemma range_length n : List.length (Py.range n) = Z.to_nat n.
Proof.
  unfold Py.range. now rewrite length_map, length_seq.
Qed.

Lemma lines_of_app o1 o2 : lines_of (o1 ++ o2) = lines_of o1 ++ lines_of o2.
Proof. apply flat_map_app. Qed.

Lemma lines_of_map_Line {A} (f : A -> Q * Q * Q * Q) (l : list A) :
  lines_of (map (fun a => let '(x1, y1, x2, y2) := f a in Line x1 y1 x2 y2) l)
  = map f l.
Proof.
  induction l as [|a l IH]; simpl; [reflexivity|].
  destruct (f a) as [[[x1 y1] x2] y2]. simpl. now rewrite IH.
Qed.

(** *** Ruled lines *)

Lemma for_lines {A} (l : list A) (f : A -> call) mt :
  Py.for_ l (fun a => c.emit (f a)) mt = Ok (tt, map f l).
Proof.
  rewrite (for_ok l _ (fun a => [f a])) by reflexivity.
  do 2 f_equal; induction l; simpl; congruence.
Qed.

Lemma LazyDM_draw_ruled_lines_run x y w n h mt :
  LazyDM.draw_ruled_lines x y w n h mt
  = Ok (y - #n * h, ruled_lines_trace LazyDM.LIGHT_GRAY x y w n h).
Proof.
  pose proof (for_lines (Py.range n)
    (fun i => Line x (y - #i * h) (x + w) (y - #i * h)) mt) as Hloop.
  unfold LazyDM.draw_ruled_lines, ruled_lines_trace.
  cbv [bind c.setStrokeColor c.setLineWidth c.setDash c.line c.emit ret] in *.
  rewrite Hloop. reflexivity.
Qed.

Lemma Faction_draw_ruled_lines_run x y w n h mt :
  Faction.draw_ruled_lines x y w n h mt
  = Ok (y - #n * h, ruled_lines_trace Faction.LIGHT_GRAY x y w n h).
Proof.
  pose proof (for_lines (Py.range n)
    (fun i => Line x (y - #i * h) (x + w) (y - #i * h)) mt) as Hloop.
  unfold Faction.draw_ruled_lines, ruled_lines_trace.
  cbv [bind c.setStrokeColor c.setLineWidth c.setDash c.line c.emit ret] in *.
  rewrite Hloop. reflexivity.
Qed.






(** *** Section headers *)

(** In doubles, [draw_section_header] at [y = 1e17] returns [1e17 - 16],
    which is not [1e17 - 15]. *)
Lemma section_header_cursor_rounds :
  exists r yq rq,
    fst (Doubles.LazyDM_draw_section_header 0 1e17 100 "Notes" None) = r
    /\ fst (Doubles.Faction_draw_section_header 0 1e17 100 "Notes") = r
    /\ Doubles.exact 1e17 = Some yq
    /\ Doubles.exact r = Some rq
    /\ rq == yq - 16
    /\ ~ rq == yq - 15.
Proof.
  exists (1e17 - 15)%float.
  do 2 eexists.
  split; [reflexivity|].
  split; [reflexivity|].
  split; [vm_compute; reflexivity|].
  split; [vm_compute; reflexivity|].
  split; [vm_compute; reflexivity|].
  intros H. vm_compute in H. discriminate H.
Qed.

(** C3, amended: for every origin, width and title, [draw_section_header]
    (both scripts) returns the double [y - 15], the difference rounded to
    the nearest double (so not always the exact [y - 15]); the cursor it
    returns depends on neither the title nor on [x] and [width]. *)
Theorem section_header_cursor_in_doubles (x y width : float) (title : string)
    (icon : option string) :
  fst (Doubles.LazyDM_draw_section_header x y width title icon)
  = (y - 15)%float
  /\ fst (Doubles.Faction_draw_section_header x y width title)
     = (y - 15)%float
  /\ Prim2SF (y - 15)%float = SF64sub (Prim2SF y) (Prim2SF 15).
Proof.
  split; [reflexivity|]. split; [reflexivity|]. apply sub_spec.
Qed.

(** *** Scale widgets *)

Ltac run_layout :=
  cbv -[Qplus Qminus Qmult Qdiv Qinv Qopp Py.str].

(** C4: both scale widgets draw, besides the axis, exactly 5 major ticks,
    the i-th at [start_x + i * (scale_width / 4)] (4 major segments), and
    then exactly 12 minor ticks, 3 per segment, the j-th of segment i at
    [start_x + i * segment_width + j * (segment_width / 4)]; the minor
    ticks of a segment sit at its quarter points. *)
Theorem scale_widgets_ticks (x y width : Q) (mt : Metrics) :
  let ticks :=
    Scale.axis x y width
    :: map (Scale.major_tick x y width) Scale.major_indices
    ++ map (Scale.minor_tick x y width) Scale.minor_indices in
  (exists ops,
      Faction.draw_progress_clock x y width mt = Ok (tt, ops)
      /\ lines_of ops = ticks)
  /\ (exists ops,
      Faction.draw_disposition_scale x y width mt = Ok (tt, ops)
      /\ lines_of ops = ticks)
  /\ List.length Scale.major_indices = 5%nat
  /\ List.length Scale.minor_indices = 12%nat
  /\ (forall i j,
      Scale.minor_x x width i j
      == Scale.major_x x width i
         + #j / 4 * (Scale.major_x x width (i + 1) - Scale.major_x x width i)).
Proof.
  intros ticks. repeat split.
  - eexists. split; [run_layout; reflexivity | reflexivity].
  - eexists. split; [run_layout; reflexivity | reflexivity].
  - intros i j. unfold Scale.minor_x, Scale.major_x.
    rewrite inject_Z_plus. field.
Qed.

(** C9: for every origin and width the two scale widgets issue the same
    sequence of calls once the text and x-offset of each label are left
    out: the same axis, ticks, label baselines, stroke colours and widths,
    in the same order.  What differs is the five labels, each centred under
    its major tick by half its own width. *)
Theorem scale_widgets_same_geometry (x y width : Q) (mt : Metrics) :
  exists ops_clock ops_scale,
    Faction.draw_progress_clock x y width mt = Ok (tt, ops_clock)
    /\ Faction.draw_disposition_scale x y width mt = Ok (tt, ops_scale)
    /\ map Scale.geometry ops_clock = map Scale.geometry ops_scale
    /\ strings_of ops_clock
       = map (Scale.label mt x y width) (Py.enumerate Faction.progress_labels)
    /\ strings_of ops_scale
       = map (Scale.label mt x y width) (Py.enumerate Faction.disposition_labels).
Proof.
  do 2 eexists.
  split; [run_layout; reflexivity|].
  split; [run_layout; reflexivity|].
  repeat split; reflexivity.
Qed.

(** *** Navigation bar *)

Lemma nav_bar_run (page_width : Q) (idx : Z) (mt : Metrics) :
  LazyDM.draw_nav_bar page_width idx mt
  = Ok (LazyDM.RM2_HEIGHT - LazyDM.MARGIN - 15 - 20,
        nav_bar_trace page_width idx).
Proof.
  unfold LazyDM.draw_nav_bar, nav_bar_trace.
  cbv [bind c.setStrokeColor c.setLineWidth c.line c.emit].
  change (Py.div (page_width - 2 * LazyDM.MARGIN) _ mt)
    with (@Ok (Q * list call) ((page_width - 2 * LazyDM.MARGIN) / 7, [])).
  cbv beta iota.
  match goal with
  | |- context [Py.for_ ?l ?body mt] =>
      assert (Hloop : Py.for_ l body mt
                      = Ok (tt, flat_map (nav_label_trace page_width idx) l))
  end.
  { apply for_ok. intros [i page_name]. unfold nav_label_trace.
    cbn [fst snd]. destruct (i =? idx)%Z; reflexivity. }
  rewrite Hloop. cbv [ret]. cbn [app]. rewrite app_nil_r. reflexivity.
Qed.

Lemma observe_flat_map_ext {A X} (obs : list call -> list X)
    (g1 g2 : A -> list call) (l : list A) :
  (forall o1 o2, obs (o1 ++ o2) = obs o1 ++ obs o2) ->
  (forall a, obs (g1 a) = obs (g2 a)) ->
  obs (flat_map g1 l) = obs (flat_map g2 l).
Proof.
  intros Happ Hext. induction l as [|a l IH]; simpl.
  - reflexivity.
  - now rewrite !Happ, Hext, IH.
Qed.

(** Any reading of the trace that is blind to the style of a label is blind
    to [current_page_idx]. *)
Lemma nav_bar_trace_observe {X} (obs : list call -> list X) pw idx1 idx2 :
  (forall o1 o2, obs (o1 ++ o2) = obs o1 ++ obs o2) ->
  (forall e, obs (nav_label_trace pw idx1 e) = obs (nav_label_trace pw idx2 e)) ->
  obs (nav_bar_trace pw idx1) = obs (nav_bar_trace pw idx2).
Proof.
  intros Happ Hext. unfold nav_bar_trace.
  rewrite !Happ. f_equal. now apply observe_flat_map_ext.
Qed.

(** C10: two runs of [draw_nav_bar] that differ only in [current_page_idx]
    return the same cursor, [RM2_HEIGHT - MARGIN - 35], and issue the same
    calls up to the arguments of [setFont] and [setFillColor]: the same
    link rectangles with the destinations page1 ... page7 and the same
    labels at the same centred positions. *)
Theorem nav_bar_noninterference (page_width : Q) (idx1 idx2 : Z)
    (mt : Metrics) :
  exists y ops1 ops2,
    LazyDM.draw_nav_bar page_width idx1 mt = Ok (y, ops1)
    /\ LazyDM.draw_nav_bar page_width idx2 mt = Ok (y, ops2)
    /\ y == LazyDM.RM2_HEIGHT - LazyDM.MARGIN - 35
    /\ map blank_style ops1 = map blank_style ops2
    /\ links_of ops1 = links_of ops2
    /\ centred_strings_of ops1 = centred_strings_of ops2
    /\ map fst (links_of ops1)
       = ["page1"; "page2"; "page3"; "page4"; "page5"; "page6"; "page7"]%string
    /\ map (fun t => snd t) (centred_strings_of ops1) = LazyDM.PAGES.
Proof.
  exists (LazyDM.RM2_HEIGHT - LazyDM.MARGIN - 15 - 20),
    (nav_bar_trace page_width idx1), (nav_bar_trace page_width idx2).
  assert (Hlinks : forall i j,
             links_of (nav_bar_trace page_width i)
             = links_of (nav_bar_trace page_width j)).
  { intros i j. apply nav_bar_trace_observe.
    - apply flat_map_app.
    - intros e. unfold nav_label_trace.
      destruct (fst e =? i)%Z, (fst e =? j)%Z; reflexivity. }
  assert (Hlabels : forall i j,
             centred_strings_of (nav_bar_trace page_width i)
             = centred_strings_of (nav_bar_trace page_width j)).
  { intros i j. apply nav_bar_trace_observe.
    - apply flat_map_app.
    - intros e. unfold nav_label_trace.
      destruct (fst e =? i)%Z, (fst e =? j)%Z; reflexivity. }
  split; [apply nav_bar_run|].
  split; [apply nav_bar_run|].
  split; [ring|].
  split.
  { apply (nav_bar_trace_observe (map blank_style)).
    - apply map_app.
    - intros e. unfold nav_label_trace.
      destruct (fst e =? idx1)%Z, (fst e =? idx2)%Z; reflexivity. }
  split; [apply Hlinks|].
  split; [apply Hlabels|].
  split.
  - rewrite (Hlinks idx1 0%Z). reflexivity.
  - rewrite (Hlabels idx1 0%Z). reflexivity.
Qed.

(** *** Dash pattern *)

Lemma run_app g o1 o2 : run g (o1 ++ o2) = run (run g o1) o2.
Proof. apply fold_left_app. Qed.

Lemma ruled_lines_trace_solid col x y w n h g :
  dash (run g (ruled_lines_trace col x y w n h)) = [].
Proof.
  unfold ruled_lines_trace. rewrite !run_app. reflexivity.
Qed.

(** C8: every routine that sets a dashed pattern has set the solid one
    again when it returns, whatever its arguments (a line count of 0
    included) and whatever state the canvas was in: the two
    [draw_ruled_lines], [draw_field_with_label], [draw_initiative_tracker]
    and the nine page composers. *)
Theorem dash_restored (x y w h line_start line_end : Q) (n tracker_num
    page_num : Z) (label : string) (mt : Metrics) :
  leaves_solid (LazyDM.draw_ruled_lines x y w n h mt)
  /\ leaves_solid (Faction.draw_ruled_lines x y w n h mt)
  /\ leaves_solid (Faction.draw_field_with_label x y label line_start line_end mt)
  /\ leaves_solid (LazyDM.draw_initiative_tracker x y w h tracker_num mt)
  /\ leaves_solid (Faction.draw_faction_page page_num mt)
  /\ leaves_solid (Faction.draw_faction_page_2 mt)
  /\ leaves_solid (LazyDM.draw_page1_overview mt)
  /\ leaves_solid (LazyDM.draw_page2_scenes mt)
  /\ leaves_solid (LazyDM.draw_page3_locations mt)
  /\ leaves_solid (LazyDM.draw_page4_secrets mt)
  /\ leaves_solid (LazyDM.draw_page5_npcs mt)
  /\ leaves_solid (LazyDM.draw_page6_combat mt)
  /\ leaves_solid (LazyDM.draw_page7_notes mt).
Proof.
  split.
  { rewrite LazyDM_draw_ruled_lines_run. intros g.
    apply ruled_lines_trace_solid. }
  split.
  { rewrite Faction_draw_ruled_lines_run. intros g.
    apply ruled_lines_trace_solid. }
  split.
  { intros g. reflexivity. }
  split.
  { run_layout. intros g. reflexivity. }
  repeat split; vm_compute; reflexivity.
Qed.

(** *** Page composers and the bottom margin *)

(** C1: on every page composer the cursor after the last drawing
    operation of the page is at or above [MARGIN], and no line, box, arc,
    link rectangle or text baseline is placed below [MARGIN].  For each
    composer the statements that draw last are run from the cursor they
    are reached with; the page's calls end with theirs. *)
Theorem page_cursor_above_margin (mt : Metrics) (page_num : Z) :
  last_drawing_above Faction.MARGIN (Faction.draw_faction_page page_num mt)
    (Faction_notes_block (Faction.RM2_HEIGHT - 479) mt) []
  /\ last_drawing_above Faction.MARGIN (Faction.draw_faction_page_2 mt)
       (Faction_fill_page (Faction.MARGIN + 5) (Faction.RM2_HEIGHT - 403)
          (Faction.RM2_WIDTH - 2 * Faction.MARGIN - 10) mt) []
  /\ last_drawing_above LazyDM.MARGIN (LazyDM.draw_page1_overview mt)
       (LazyDM_beats_row (LazyDM.RM2_HEIGHT - 550) mt) [SetDash []]
  /\ last_drawing_above LazyDM.MARGIN (LazyDM.draw_page2_scenes mt)
       (LazyDM_scene_block 6 (LazyDM.RM2_HEIGHT - 511) mt) []
  /\ last_drawing_above LazyDM.MARGIN (LazyDM.draw_page3_locations mt)
       (LazyDM_location_block 7 (LazyDM.RM2_HEIGHT - 498) mt) []
  /\ last_drawing_above LazyDM.MARGIN (LazyDM.draw_page4_secrets mt)
       (LazyDM_loot_row (LazyDM.RM2_HEIGHT - 556) mt) [SetDash []]
  /\ last_drawing_above LazyDM.MARGIN (LazyDM.draw_page5_npcs mt)
       (LazyDM_npc_block (LazyDM.RM2_HEIGHT - 436) mt) [SetDash []]
  /\ last_drawing_above LazyDM.MARGIN (LazyDM.draw_page6_combat mt)
       (LazyDM_monster_row (LazyDM.RM2_HEIGHT - 570) mt) [SetDash []]
  /\ last_drawing_above LazyDM.MARGIN (LazyDM.draw_page7_notes mt)
       (LazyDM_fill_page (LazyDM.MARGIN + 5) (LazyDM.RM2_HEIGHT - 85)
          (LazyDM.RM2_WIDTH - 2 * LazyDM.MARGIN - 10) mt) [].
Proof.
  repeat match goal with |- _ /\ _ => split end;
    vm_compute; repeat split; solve [reflexivity | discriminate].
Qed.

(** *** The assembled documents *)

(** C5: the session template declares exactly 7 bookmarks, page1 ...
    page7, one on each of its pages in page order, and the navigation bar
    of page i shows label i of [PAGES] in Helvetica-Bold, dark gray, and
    every other label in Helvetica, medium gray. *)
Theorem lazy_dm_bookmarks_and_current_label (mt : Metrics) (fname : string) :
  exists doc,
    LazyDM.create_lazy_dm_template mt fname = Ok doc
    /\ bookmarks_of (calls doc)
       = ["page1"; "page2"; "page3"; "page4"; "page5"; "page6"; "page7"]%string
    /\ map bookmarks_of (pages_of (calls doc))
       = [["page1"]; ["page2"]; ["page3"]; ["page4"]; ["page5"]; ["page6"];
          ["page7"]]%string
    /\ forall g,
        map (centred_texts g) (pages_of (calls doc))
        = map nav_labels_on_page (Py.range 7).
Proof.
  apply result_ok_inv. vm_compute. repeat split.
Qed.

(** C6: the session template has exactly 7 pages and 7 bookmarks, and
    every page carries exactly 7 link rectangles, one per entry of
    [PAGES], the i-th (from 0) leading to page{i+1}. *)
Theorem lazy_dm_pages_and_links (mt : Metrics) (fname : string) :
  exists doc,
    LazyDM.create_lazy_dm_template mt fname = Ok doc
    /\ List.length (pages_of (calls doc)) = 7%nat
    /\ List.length (bookmarks_of (calls doc)) = 7%nat
    /\ map (fun page => map fst (links_of page)) (pages_of (calls doc))
       = repeat nav_destinations 7
    /\ List.length nav_destinations = List.length LazyDM.PAGES.
Proof.
  apply result_ok_inv. vm_compute. repeat split.
Qed.

(** C7: [create_faction_template] with its default file name returns
    without raising.  The canvas is opened with the page size
    [1404 * 72 / 226] by [1872 * 72 / 226] points; the calls made on it are
    those of [draw_faction_page], [showPage], those of
    [draw_faction_page_2] and [save], so the saved document has exactly 2
    pages, the two composed pages, each with drawings on it. *)
Theorem faction_document_two_pages (mt : Metrics) :
  exists doc page1 page2,
    Faction.create_faction_template mt Faction.default_filename = Ok doc
    /\ trace_of (Faction.draw_faction_page 1 mt) = Some page1
    /\ trace_of (Faction.draw_faction_page_2 mt) = Some page2
    /\ calls doc = page1 ++ [ShowPage] ++ page2 ++ [Save]
    /\ pages_of (calls doc) = [page1; page2]
    /\ List.length (pages_of (calls doc)) = 2%nat
    /\ existsb draws page1 = true
    /\ existsb draws page2 = true
    /\ pagesize doc = (1404 * 72 / 226, 1872 * 72 / 226)
    /\ pagesize doc = (Faction.RM2_WIDTH, Faction.RM2_HEIGHT)
    /\ filename doc = "faction_tracking_template.pdf"%string.
Proof.
  exists (match Faction.create_faction_template mt Faction.default_filename with
          | Ok doc => doc
          | Raise _ => mkDocument "" (0, 0) []
          end),
         (match trace_of (Faction.draw_faction_page 1 mt) with
          | Some t => t
          | None => []
          end),
         (match trace_of (Faction.draw_faction_page_2 mt) with
          | Some t => t
          | None => []
          end).
  repeat split; vm_compute; reflexivity.
Qed.

(** ** Further properties of the drawing routines *)

(** *** Corner flourishes and frames *)

(** [draw_corner_flourish] with a position that is none of "tl", "tr", "bl",
    "br" sets the stroke colour and line width and draws nothing. *)
Theorem corner_flourish_unknown_position (x y : Q) (position : string)
    (mt : Metrics) :
  position <> "tl"%string -> position <> "tr"%string ->
  position <> "bl"%string -> position <> "br"%string ->
  LazyDM.draw_corner_flourish x y position mt
  = Ok (tt, [SetStrokeColor LazyDM.MED_GRAY; SetLineWidth 0.75])
  /\ Faction.draw_corner_flourish x y position mt
     = Ok (tt, [SetStrokeColor Faction.MED_GRAY; SetLineWidth 0.75]).
Proof.
  intros Htl Htr Hbl Hbr.
  apply String.eqb_neq in Htl, Htr, Hbl, Hbr.
  unfold LazyDM.draw_corner_flourish, Faction.draw_corner_flourish.
  rewrite Htl, Htr, Hbl, Hbr. split; reflexivity.
Qed.

Lemma corner_flourish_unknown_position_witness :
  ("top-left" <> "tl" /\ "top-left" <> "tr" /\ "top-left" <> "bl"
   /\ "top-left" <> "br")%string
  /\ LazyDM.draw_corner_flourish 0 0 "top-left" (fun _ _ _ => 0)
     = Ok (tt, [SetStrokeColor LazyDM.MED_GRAY; SetLineWidth 0.75])
  /\ Faction.draw_corner_flourish 0 0 "top-left" (fun _ _ _ => 0)
     = Ok (tt, [SetStrokeColor Faction.MED_GRAY; SetLineWidth 0.75]).
Proof.
  split.
  - repeat split; discriminate.
  - apply (corner_flourish_unknown_position 0 0 "top-left" (fun _ _ _ => 0));
      discriminate.
Defined.




(** *** Section headers *)


(** *** Ruled lines *)

Lemma in_range (n i : Z) : In i (Py.range n) <-> (0 <= i < n)%Z.
Proof.
  unfold Py.range. rewrite in_map_iff. split.
  - intros [k [<- Hk]]. apply in_seq in Hk. lia.
  - intros Hi. exists (Z.to_nat i). split; [lia|]. apply in_seq. lia.
Qed.

Lemma range_nonpositive (n : Z) : (n <= 0)%Z -> Py.range n = [].
Proof.
  intros Hn. unfold Py.range. now replace (Z.to_nat n) with 0%nat by lia.
Qed.

Lemma lines_of_ruled_lines_trace col x y w n h :
  lines_of (ruled_lines_trace col x y w n h)
  = map (fun i => (x, y - #i * h, x + w, y - #i * h)) (Py.range n).
Proof.
  unfold ruled_lines_trace. rewrite !lines_of_app. simpl. rewrite app_nil_r.
  apply (lines_of_map_Line (fun i => (x, y - #i * h, x + w, y - #i * h))).
Qed.

Lemma ruled_lines_trace_between col x y w n h :
  0 < h ->
  Forall (ruled_between x w (y - #n * h) y)
    (lines_of (ruled_lines_trace col x y w n h)).
Proof.
  intros Hh. rewrite lines_of_ruled_lines_trace.
  apply Forall_forall. intros l Hl.
  apply in_map_iff in Hl. destruct Hl as [i [<- Hi]].
  apply in_range in Hi. destruct Hi as [Hi0 Hin].
  rewrite Zle_Qle in Hi0. rewrite Zlt_Qlt in Hin.
  change (#0) with 0 in Hi0.
  unfold ruled_between. repeat split; nra.
Qed.

Lemma stroke_styles_lines {A} (f : A -> call) (l : list A) g rest :
  (forall a, exists x1 y1 x2 y2, f a = Line x1 y1 x2 y2) ->
  stroke_styles g (map f l ++ rest)
  = repeat (strokeColor g, lineWidth g, dash g) (List.length l)
    ++ stroke_styles g rest.
Proof.
  intros Hf. induction l as [|a l IH]; simpl; [reflexivity|].
  destruct (Hf a) as [x1 [y1 [x2 [y2 ->]]]]. now rewrite IH.
Qed.

(** Whatever state the canvas is in, [draw_ruled_lines] strokes each of its
    lines in light gray, 0.5 wide, with the dash pattern [2, 2]. *)
Theorem ruled_lines_style (x y w : Q) (n : Z) (h : Q) (mt : Metrics)
    (g : GState) :
  (exists r ops,
      LazyDM.draw_ruled_lines x y w n h mt = Ok (r, ops)
      /\ stroke_styles g ops
         = repeat (LazyDM.LIGHT_GRAY, 0.5, [2; 2]) (Z.to_nat n))
  /\ (exists r ops,
      Faction.draw_ruled_lines x y w n h mt = Ok (r, ops)
      /\ stroke_styles g ops
         = repeat (Faction.LIGHT_GRAY, 0.5, [2; 2]) (Z.to_nat n)).
Proof.
  assert (Hst : forall col,
             stroke_styles g (ruled_lines_trace col x y w n h)
             = repeat (col, 0.5, [2; 2]) (Z.to_nat n)).
  { intros col. unfold ruled_lines_trace. cbn [app stroke_styles exec].
    rewrite stroke_styles_lines by (intros i; eauto).
    cbn. now rewrite app_nil_r, range_length. }
  split; do 2 eexists.
  - split; [apply LazyDM_draw_ruled_lines_run | apply Hst].
  - split; [apply Faction_draw_ruled_lines_run | apply Hst].
Qed.

(** *** Filling the rest of a page *)

Lemma int_floor (q : Q) :
  0 <= q -> #(Py.int q) <= q /\ q < #(Py.int q) + 1.
Proof.
  intros Hq. unfold Py.int.
  assert (Hnum : (0 <= Qnum q)%Z).
  { unfold Qle in Hq. simpl in Hq. lia. }
  rewrite Z.quot_div_nonneg by lia.
  replace (Qnum q / Z.pos (Qden q))%Z with (Qfloor q)
    by (destruct q; reflexivity).
  split; [apply Qfloor_le|].
  pose proof (Qlt_floor q) as Hlt. rewrite inject_Z_plus in Hlt. exact Hlt.
Qed.

Lemma int_negative (q : Q) : q < 0 -> (Py.int q <= 0)%Z.
Proof.
  intros Hq. unfold Py.int.
  assert (Hnum : (Qnum q < 0)%Z).
  { unfold Qlt in Hq. simpl in Hq. lia. }
  rewrite <- (Z.opp_involutive (Qnum q)).
  rewrite Z.quot_opp_l by lia.
  assert (0 <= - Qnum q ÷ Z.pos (Qden q))%Z by (apply Z.quot_pos; lia).
  lia.
Qed.

Lemma LazyDM_fill_page_run x y w mt :
  LazyDM_fill_page x y w mt
  = Ok (y - #(Py.int ((y - 20 - 10) / 12)) * 12,
        ruled_lines_trace LazyDM.LIGHT_GRAY x y w
          (Py.int ((y - 20 - 10) / 12)) 12).
Proof.
  unfold LazyDM_fill_page, bind.
  change (Py.div (y - LazyDM.MARGIN - 10) LazyDM.SMALL_LINE_HEIGHT mt)
    with (@Ok (Q * list call) ((y - 20 - 10) / 12, [])).
  cbv beta iota. rewrite LazyDM_draw_ruled_lines_run. reflexivity.
Qed.

Lemma Faction_fill_page_run x y w mt :
  Faction_fill_page x y w mt
  = Ok (y - #(Py.int ((y - 20 - 10) / 12)) * 12,
        ruled_lines_trace Faction.LIGHT_GRAY x y w
          (Py.int ((y - 20 - 10) / 12)) 12).
Proof.
  unfold Faction_fill_page, bind.
  change (Py.div (y - Faction.MARGIN - 10) Faction.SMALL_LINE_HEIGHT mt)
    with (@Ok (Q * list call) ((y - 20 - 10) / 12, [])).
  cbv beta iota. rewrite Faction_draw_ruled_lines_run. reflexivity.
Qed.

Lemma fill_cursor_bounds (y : Q) :
  30 <= y ->
  30 <= y - #(Py.int ((y - 20 - 10) / 12)) * 12
  /\ y - #(Py.int ((y - 20 - 10) / 12)) * 12 < 42.
Proof.
  intros Hy.
  assert (Hq : 0 <= (y - 20 - 10) / 12).
  { apply Qle_shift_div_l; [reflexivity | lra]. }
  destruct (int_floor _ Hq) as [Hlo Hhi].
  assert (Hmul : 12 * ((y - 20 - 10) / 12) == y - 30) by field.
  split; lra.
Qed.

(** The page-filling tail of [draw_page7_notes] and [draw_faction_page_2],
    started from any cursor at or above [MARGIN + 10], rules lines that
    all lie above the cursor it returns, and that cursor is at or above
    [MARGIN + 10] and less than one line height above it: the page is
    filled and the bottom margin kept.  Both composers end with exactly
    these calls. *)
Theorem fill_page_keeps_margin (x y w : Q) (mt : Metrics) :
  LazyDM.MARGIN + 10 <= y ->
  (exists r ops,
      LazyDM_fill_page x y w mt = Ok (r, ops)
      /\ LazyDM.MARGIN + 10 <= r
      /\ r < LazyDM.MARGIN + 10 + LazyDM.SMALL_LINE_HEIGHT
      /\ Forall (ruled_between x w r y) (lines_of ops))
  /\ (exists r ops,
      Faction_fill_page x y w mt = Ok (r, ops)
      /\ Faction.MARGIN + 10 <= r
      /\ r < Faction.MARGIN + 10 + Faction.SMALL_LINE_HEIGHT
      /\ Forall (ruled_between x w r y) (lines_of ops))
  /\ (exists pre ops,
      trace_of (LazyDM.draw_page7_notes mt) = Some (pre ++ ops)
      /\ trace_of
           (LazyDM_fill_page (LazyDM.MARGIN + 5)
              (LazyDM.RM2_HEIGHT - LazyDM.MARGIN - 15 - 20 - 10 - 15 - 5)
              (LazyDM.RM2_WIDTH - 2 * LazyDM.MARGIN - 10) mt)
         = Some ops)
  /\ (exists pre y0 ops,
      trace_of (Faction.draw_faction_page_2 mt) = Some (pre ++ ops)
      /\ trace_of
           (Faction_fill_page (Faction.MARGIN + 5) y0
              (Faction.RM2_WIDTH - 2 * Faction.MARGIN - 10) mt)
         = Some ops).
Proof.
  intros Hy.
  assert (Hy' : 30 <= y) by (unfold LazyDM.MARGIN in Hy; lra).
  destruct (fill_cursor_bounds y Hy') as [Hlo Hhi].
  split; [|split; [|split]].
  - do 2 eexists. split; [apply LazyDM_fill_page_run|].
    unfold LazyDM.MARGIN, LazyDM.SMALL_LINE_HEIGHT.
    split; [lra|]. split; [lra|].
    apply ruled_lines_trace_between. reflexivity.
  - do 2 eexists. split; [apply Faction_fill_page_run|].
    unfold Faction.MARGIN, Faction.SMALL_LINE_HEIGHT.
    split; [lra|]. split; [lra|].
    apply ruled_lines_trace_between. reflexivity.
  - exists (firstn 49 (match trace_of (LazyDM.draw_page7_notes mt) with
                       | Some t => t | None => [] end)),
           (skipn 49 (match trace_of (LazyDM.draw_page7_notes mt) with
                      | Some t => t | None => [] end)).
    split; vm_compute; reflexivity.
  - exists (firstn 210 (match trace_of (Faction.draw_faction_page_2 mt) with
                        | Some t => t | None => [] end)),
           (match value_of (Faction.draw_faction_page_2_cursor mt) with
            | Some y0 => y0 | None => 0 end),
           (skipn 210 (match trace_of (Faction.draw_faction_page_2 mt) with
                       | Some t => t | None => [] end)).
    split; vm_compute; reflexivity.
Qed.

(** When the cursor is already below [MARGIN + 10] the page-filling tail
    draws no line at all. *)
Theorem fill_page_below_margin_draws_nothing (x y w : Q) (mt : Metrics) :
  y < LazyDM.MARGIN + 10 ->
  (exists r ops,
      LazyDM_fill_page x y w mt = Ok (r, ops) /\ lines_of ops = [])
  /\ (exists r ops,
      Faction_fill_page x y w mt = Ok (r, ops) /\ lines_of ops = []).
Proof.
  intros Hy. unfold LazyDM.MARGIN in Hy.
  assert (Hq : (y - 20 - 10) / 12 < 0).
  { apply Qlt_shift_div_r; [reflexivity | lra]. }
  apply int_negative in Hq.
  split; do 2 eexists.
  - split; [apply LazyDM_fill_page_run|].
    rewrite lines_of_ruled_lines_trace. now rewrite range_nonpositive.
  - split; [apply Faction_fill_page_run|].
    rewrite lines_of_ruled_lines_trace. now rewrite range_nonpositive.
Qed.

Lemma fill_page_below_margin_draws_nothing_witness :
  25 < LazyDM.MARGIN + 10
  /\ (exists r ops,
      LazyDM_fill_page 25 25 400 (fun _ _ _ => 0) = Ok (r, ops)
      /\ lines_of ops = [])
  /\ (exists r ops,
      Faction_fill_page 25 25 400 (fun _ _ _ => 0) = Ok (r, ops)
      /\ lines_of ops = []).
Proof.
  assert (H : 25 < LazyDM.MARGIN + 10) by reflexivity.
  split; [exact H|].
  apply (fill_page_below_margin_draws_nothing 25 25 400 (fun _ _ _ => 0) H).
Defined.

Lemma fill_page_keeps_margin_witness :
  LazyDM.MARGIN + 10 <= 500
  /\ (exists r ops,
      LazyDM_fill_page 25 500 400 (fun _ _ _ => 0) = Ok (r, ops)
      /\ LazyDM.MARGIN + 10 <= r
      /\ r < LazyDM.MARGIN + 10 + LazyDM.SMALL_LINE_HEIGHT
      /\ Forall (ruled_between 25 400 r 500) (lines_of ops)).
Proof.
  assert (H : LazyDM.MARGIN + 10 <= 500) by discriminate.
  split; [exact H|].
  apply (fill_page_keeps_margin 25 500 400 (fun _ _ _ => 0) H).
Defined.

(** *** Scale widgets *)





(** *** Navigation bar *)

Lemma centred_texts_nav_labels pw idx (l : list (Z * string)) g :
  centred_texts g (flat_map (nav_label_trace pw idx) l)
  = map (fun '(j, page_name) =>
           (page_name,
            if (j =? idx)%Z then ("Helvetica-Bold"%string, LazyDM.DARK_GRAY)
            else ("Helvetica"%string, LazyDM.MED_GRAY))) l.
Proof.
  revert g. induction l as [|[j page_name] l IH]; intros g; [reflexivity|].
  cbn [flat_map map]. unfold nav_label_trace at 1. cbn [fst snd].
  destruct (j =? idx)%Z; cbn; now rewrite IH.
Qed.

(** Whatever the page width, the index and the state of the canvas, the
    labels [draw_nav_bar] draws are those of [PAGES] in order, label
    [current_page_idx] in Helvetica-Bold, dark gray, all others in
    Helvetica, medium gray. *)
Theorem nav_bar_label_styles (page_width : Q) (idx : Z) (mt : Metrics)
    (g : GState) :
  exists y ops,
    LazyDM.draw_nav_bar page_width idx mt = Ok (y, ops)
    /\ centred_texts g ops = nav_labels_on_page idx.
Proof.
  do 2 eexists. split; [apply nav_bar_run|].
  unfold nav_bar_trace. cbn [app centred_texts exec].
  apply centred_texts_nav_labels.
Qed.

(** With an index that is no position of [PAGES] (negative, or 7 and
    more) [draw_nav_bar] highlights nothing: all seven labels are drawn in
    the regular style. *)
Theorem nav_bar_index_out_of_range (page_width : Q) (idx : Z) (mt : Metrics)
    (g : GState) :
  (idx < 0 \/ 7 <= idx)%Z ->
  exists y ops,
    LazyDM.draw_nav_bar page_width idx mt = Ok (y, ops)
    /\ centred_texts g ops = map nav_regular LazyDM.PAGES.
Proof.
  intros Hidx. do 2 eexists. split; [apply nav_bar_run|].
  unfold nav_bar_trace. cbn [app centred_texts exec].
  rewrite centred_texts_nav_labels.
  cbv [Py.enumerate Py.range Py.len LazyDM.PAGES List.length Z.of_nat
       Pos.of_succ_nat Pos.succ Z.to_nat Pos.to_nat Pos.iter_op Nat.add
       seq map combine].
  repeat match goal with
         | |- context [(?j =? idx)%Z] =>
             destruct (Z.eqb_spec j idx); [lia|]
         end.
  reflexivity.
Qed.

Lemma nav_bar_index_out_of_range_witness :
  (7 < 0 \/ 7 <= 7)%Z
  /\ exists y ops,
      LazyDM.draw_nav_bar LazyDM.RM2_WIDTH 7 (fun _ _ _ => 0) = Ok (y, ops)
      /\ centred_texts initial_gstate ops = map nav_regular LazyDM.PAGES.
Proof.
  assert (H : (7 < 0 \/ 7 <= 7)%Z) by (right; discriminate).
  split; [exact H|].
  apply (nav_bar_index_out_of_range LazyDM.RM2_WIDTH 7 (fun _ _ _ => 0)
           initial_gstate H).
Defined.

(** *** Initiative tracker *)



(** [draw_initiative_tracker] strokes its frame 1 wide and the twelve
    strokes of the flourishes 0.75 wide, in medium gray; the underline of
    the title in light gray but still 0.75 wide; all of these with the
    dash pattern the canvas was left in.  Only the 96 boxes and lines of
    the twelve rows are stroked 0.5 wide with the pattern [1, 2]. *)
Theorem initiative_tracker_stroke_styles (x y width height : Q)
    (tracker_num : Z) (mt : Metrics) (g : GState) :
  exists ops,
    LazyDM.draw_initiative_tracker x y width height tracker_num mt
    = Ok (tt, ops)
    /\ stroke_styles g ops
       = (LazyDM.MED_GRAY, 1, dash g)
         :: repeat (LazyDM.MED_GRAY, 0.75, dash g) 12
         ++ (LazyDM.LIGHT_GRAY, 0.75, dash g)
         :: repeat (LazyDM.LIGHT_GRAY, 0.5, [1; 2]) 96.
Proof.
  eexists. split; [run_layout; reflexivity | reflexivity].
Qed.

(** *** Dash pattern left alone *)

Lemma run_keeps_dash (ops : list call) :
  Forall (fun op => keeps_dash op = true) ops ->
  forall g, dash (run g ops) = dash g.
Proof.
  induction 1 as [|op ops Hop _ IH]; intros g; [reflexivity|].
  unfold run in *. cbn [fold_left]. rewrite IH.
  destruct op; try reflexivity; discriminate.
Qed.

Lemma nav_bar_trace_keeps_dash pw idx :
  Forall (fun op => keeps_dash op = true) (nav_bar_trace pw idx).
Proof.
  unfold nav_bar_trace. apply Forall_app. split.
  - repeat constructor.
  - apply Forall_flat_map, Forall_forall. intros e _.
    unfold nav_label_trace. destruct (fst e =? idx)%Z; repeat constructor.
Qed.

Ltac by_position position :=
  destruct (position =? "tl")%string;
  [|destruct (position =? "tr")%string;
    [|destruct (position =? "bl")%string;
      [|destruct (position =? "br")%string]]].

(** The routines that draw solid shapes never set a dash pattern
    themselves: the flourishes, frames, section headers, check boxes,
    dividers, scales and the navigation bar are stroked with whatever
    pattern is in force, and leave it as they found it. *)
Theorem dash_left_alone (x y width height size : Q) (position title style
    : string) (icon : option string) (idx : Z) (mt : Metrics) :
  dash_untouched (LazyDM.draw_corner_flourish x y position mt)
  /\ dash_untouched (LazyDM.draw_decorative_frame x y width height style mt)
  /\ dash_untouched (LazyDM.draw_section_header x y width title icon mt)
  /\ dash_untouched (LazyDM.draw_checkbox x y size mt)
  /\ dash_untouched (LazyDM.draw_sword_divider x y width mt)
  /\ dash_untouched (LazyDM.draw_nav_bar width idx mt)
  /\ dash_untouched (Faction.draw_corner_flourish x y position mt)
  /\ dash_untouched (Faction.draw_decorative_frame x y width height mt)
  /\ dash_untouched (Faction.draw_section_header x y width title mt)
  /\ dash_untouched (Faction.draw_sword_divider x y width mt)
  /\ dash_untouched (Faction.draw_progress_clock x y width mt)
  /\ dash_untouched (Faction.draw_disposition_scale x y width mt).
Proof.
  repeat match goal with |- _ /\ _ => split end.
  - unfold LazyDM.draw_corner_flourish.
    by_position position; intros g; reflexivity.
  - intros g; reflexivity.
  - intros g; reflexivity.
  - intros g; reflexivity.
  - intros g; reflexivity.
  - rewrite nav_bar_run. intros g.
    apply run_keeps_dash, nav_bar_trace_keeps_dash.
  - unfold Faction.draw_corner_flourish.
    by_position position; intros g; reflexivity.
  - intros g; reflexivity.
  - intros g; reflexivity.
  - intros g; reflexivity.
  - run_layout. intros g; reflexivity.
  - run_layout. intros g; reflexivity.
Qed.

(** *** Pages and the printable area *)

(** Every page composer keeps what it strokes and its link rectangles
    horizontally between the two margins, and everything it draws at or
    above the bottom margin.  All but one also stay at or below the top
    margin [RM2_HEIGHT - MARGIN]; [draw_faction_page_2] opens with a
    section header at the top margin, whose flourishes reach 5 above it. *)
Theorem pages_keep_printable_area (mt : Metrics) (page_num : Z) :
  keeps_area Faction.RM2_WIDTH Faction.MARGIN
    (Faction.RM2_HEIGHT - Faction.MARGIN) (Faction.draw_faction_page page_num mt)
  /\ keeps_area Faction.RM2_WIDTH Faction.MARGIN
       (Faction.RM2_HEIGHT - Faction.MARGIN + 5) (Faction.draw_faction_page_2 mt)
  /\ strokes_above (Faction.RM2_HEIGHT - Faction.MARGIN)
       (Faction.draw_faction_page_2 mt)
  /\ keeps_area LazyDM.RM2_WIDTH LazyDM.MARGIN
       (LazyDM.RM2_HEIGHT - LazyDM.MARGIN) (LazyDM.draw_page1_overview mt)
  /\ keeps_area LazyDM.RM2_WIDTH LazyDM.MARGIN
       (LazyDM.RM2_HEIGHT - LazyDM.MARGIN) (LazyDM.draw_page2_scenes mt)
  /\ keeps_area LazyDM.RM2_WIDTH LazyDM.MARGIN
       (LazyDM.RM2_HEIGHT - LazyDM.MARGIN) (LazyDM.draw_page3_locations mt)
  /\ keeps_area LazyDM.RM2_WIDTH LazyDM.MARGIN
       (LazyDM.RM2_HEIGHT - LazyDM.MARGIN) (LazyDM.draw_page4_secrets mt)
  /\ keeps_area LazyDM.RM2_WIDTH LazyDM.MARGIN
       (LazyDM.RM2_HEIGHT - LazyDM.MARGIN) (LazyDM.draw_page5_npcs mt)
  /\ keeps_area LazyDM.RM2_WIDTH LazyDM.MARGIN
       (LazyDM.RM2_HEIGHT - LazyDM.MARGIN) (LazyDM.draw_page6_combat mt)
  /\ keeps_area LazyDM.RM2_WIDTH LazyDM.MARGIN
       (LazyDM.RM2_HEIGHT - LazyDM.MARGIN) (LazyDM.draw_page7_notes mt).
Proof.
  repeat match goal with |- _ /\ _ => split end;
    vm_compute; try split; reflexivity.
Qed.

(** On pages 2 and 3 of the session template the underline of the first
    block's title is stroked 0.75 wide, the width the section header's
    flourish left behind, and those of the later blocks 0.5 wide, the
    width [draw_ruled_lines] left behind: the composer sets the stroke
    colour before each underline, but not the line width. *)
Theorem block_title_underline_widths (mt : Metrics) (g : GState) :
  (exists ops,
      trace_of (LazyDM.draw_page2_scenes mt) = Some ops
      /\ line_widths_at (LazyDM.MARGIN + 50) g ops
         = 0.75 :: repeat 0.5 6)
  /\ (exists ops,
      trace_of (LazyDM.draw_page3_locations mt) = Some ops
      /\ line_widths_at (LazyDM.MARGIN + 65) g ops
         = 0.75 :: repeat 0.5 7).
Proof.
  split; eexists; (split; [vm_compute; reflexivity | vm_compute; reflexivity]).
Qed.

(** *** The assembled documents *)

(** In the session template no link dangles and no bookmark is declared
    twice: each of the 49 link rectangles leads to a bookmark the document
    declares. *)
Theorem lazy_dm_links_resolve (mt : Metrics) (fname : string) :
  exists doc,
    LazyDM.create_lazy_dm_template mt fname = Ok doc
    /\ List.length (links_of (calls doc)) = 49%nat
    /\ NoDup (bookmarks_of (calls doc))
    /\ incl (map fst (links_of (calls doc))) (bookmarks_of (calls doc)).
Proof.
  apply result_ok_inv. vm_compute. split; [reflexivity|]. split.
  - repeat (apply NoDup_cons;
            [simpl; intuition discriminate|]).
    apply NoDup_nil.
  - intros dest Hdest.
    repeat (destruct Hdest as [<-|Hdest]; [tauto|]).
    destruct Hdest.
Qed.

(** The faction template has no navigation: it declares no bookmark, makes
    no link rectangle and draws no centred label, whatever the metrics and
    the file name.  It ends with the one [save] it makes, on the canvas
    opened under the file name it was given, with two pages drawn. *)
Theorem faction_document_has_no_navigation (mt : Metrics) (fname : string) :
  exists doc,
    Faction.create_faction_template mt fname = Ok doc
    /\ filename doc = fname
    /\ ends_with (calls doc) [Save]
    /\ List.length (filter (fun op => match op with Save => true | _ => false end)
                      (calls doc)) = 1%nat
    /\ map (existsb draws) (pages_of (calls doc)) = [true; true]
    /\ bookmarks_of (calls doc) = []
    /\ links_of (calls doc) = []
    /\ centred_strings_of (calls doc) = [].
Proof.
  apply result_ok_inv. vm_compute. repeat split.
Qed.

(** *** Rows drawn by a loop that steps the cursor down *)

(** A loop whose body draws at the height of the cursor and steps it down
    by [h]: the cursor it ends with is [h] per turn below the start, and
    everything drawn is at least [h] above it and at most at the start. *)
Lemma for_acc_descending {A} (l : list A) (body : A -> Q -> M Q) (h : Q) mt :
  0 < h ->
  (forall a y, exists ops,
      body a y mt = Ok (y - h, ops)
      /\ Forall (fun p => snd p = y) (flat_map points_of ops)) ->
  forall y, exists r ops,
    Py.for_acc l y body mt = Ok (r, ops)
    /\ r == y - #(Z.of_nat (List.length l)) * h
    /\ Forall (fun p => between (r + h) y (snd p)) (flat_map points_of ops).
Proof.
  intros Hh Hbody. induction l as [|a l IH]; intros y.
  - exists y, []. split; [reflexivity|]. split; [|constructor].
    cbn. ring.
  - destruct (Hbody a y) as [ops1 [Hrun1 Hat]].
    destruct (IH (y - h)) as [r [ops2 [Hrun2 [Hr Hin]]]].
    exists r, (ops1 ++ ops2). split; [|split].
    + cbn [Py.for_acc]. now apply bind_ok with (a := y - h).
    + rewrite Hr. cbn [List.length]. rewrite Nat2Z.inj_succ.
      unfold Z.succ. rewrite inject_Z_plus. ring.
    + assert (Hlen : 0 <= #(Z.of_nat (List.length l))).
      { rewrite <- (Zle_Qle 0). lia. }
      rewrite flat_map_app. apply Forall_app. split.
      * eapply Forall_impl; [|exact Hat].
        intros p ->. unfold between. split; [nra | lra].
      * eapply Forall_impl; [|exact Hin].
        intros p [Hlo Hhi]. unfold between. split; lra.
Qed.

Lemma fill_run_tail {S} (m : M S) (s : S) ops mt :
  m mt = Ok (s, ops) ->
  (s' <- m ;; c.setDash [] ;; ret s') mt = Ok (s, ops ++ [SetDash []]).
Proof.
  intros Hm. eapply bind_ok; [exact Hm | reflexivity].
Qed.

Lemma points_of_app_reset ops :
  flat_map points_of (ops ++ [SetDash []]) = flat_map points_of ops.
Proof.
  rewrite flat_map_app. cbn. apply app_nil_r.
Qed.

Lemma int_nonnegative (q : Q) : 0 <= q -> (0 <= Py.int q)%Z.
Proof.
  intros Hq. unfold Py.int. apply Z.quot_pos; [|lia].
  unfold Qle in Hq. simpl in Hq. lia.
Qed.

(** The three-column tail of [draw_page1_overview], started from any
    cursor at or above [MARGIN + 10], ends with the cursor at or above
    [MARGIN + 10] and less than a line height above it, and draws every
    row at least a line height above where it ends: nothing below
    [MARGIN + 22].  [draw_page1_overview] reaches this tail with the cursor
    at [RM2_HEIGHT - 466]: its calls end with the 49 calls the tail makes
    from there, and its cursor ends where the tail's does. *)
Theorem fill_three_columns_keeps_margin (y : Q) (mt : Metrics) :
  LazyDM.MARGIN + 10 <= y ->
  (exists r ops,
      LazyDM_fill_three_columns y mt = Ok (r, ops)
      /\ LazyDM.MARGIN + 10 <= r
      /\ r < LazyDM.MARGIN + 10 + LazyDM.SMALL_LINE_HEIGHT
      /\ Forall (fun p => between (LazyDM.MARGIN + 22) y (snd p))
           (flat_map points_of ops))
  /\ (exists pre ops,
      trace_of (LazyDM.draw_page1_overview mt) = Some (pre ++ ops)
      /\ trace_of (LazyDM_fill_three_columns (LazyDM.RM2_HEIGHT - 466) mt)
         = Some ops
      /\ List.length ops = 49%nat
      /\ value_of (LazyDM.draw_page1_overview_cursor mt)
         = value_of (LazyDM_fill_three_columns (LazyDM.RM2_HEIGHT - 466) mt)).
Proof.
  intros Hy. unfold LazyDM.MARGIN, LazyDM.SMALL_LINE_HEIGHT in *. split.
  - assert (Hy' : 30 <= y) by lra.
    assert (Hq : 0 <= (y - 20 - 10) / 12).
    { apply Qle_shift_div_l; [reflexivity | lra]. }
    destruct (int_floor _ Hq) as [Hlo Hhi].
    pose proof (int_nonnegative _ Hq) as Hn.
    assert (Hmul : 12 * ((y - 20 - 10) / 12) == y - 30) by field.
    unfold LazyDM_fill_three_columns. unfold bind at 1.
    change (Py.div (y - LazyDM.MARGIN - 10) LazyDM.SMALL_LINE_HEIGHT mt)
      with (@Ok (Q * list call) ((y - 20 - 10) / 12, [])).
    cbv beta iota zeta.
    match goal with
    | |- context [Py.for_acc ?l _ ?body] =>
        destruct (for_acc_descending l body 12 mt) with (y := y)
          as [r [ops [Hrun [Hr Hpts]]]]
    end.
    { reflexivity. }
    { intros i y'. eexists. split; [reflexivity|]. repeat constructor. }
    rewrite range_length, Z2Nat.id in Hr by exact Hn.
    exists r, (ops ++ [SetDash []]).
    split.
    { rewrite (fill_run_tail _ _ _ _ Hrun). reflexivity. }
    split; [lra|]. split; [lra|].
    rewrite points_of_app_reset.
    eapply Forall_impl; [|exact Hpts].
    intros p [Hlo' Hhi']. unfold between. split; lra.
  - exists (firstn 217 (match trace_of (LazyDM.draw_page1_overview mt) with
                        | Some t => t | None => [] end)),
           (skipn 217 (match trace_of (LazyDM.draw_page1_overview mt) with
                       | Some t => t | None => [] end)).
    repeat split; vm_compute; reflexivity.
Qed.

Lemma fill_three_columns_keeps_margin_witness :
  LazyDM.MARGIN + 10 <= 130
  /\ exists r ops,
      LazyDM_fill_three_columns 130 (fun _ _ _ => 0) = Ok (r, ops)
      /\ LazyDM.MARGIN + 10 <= r
      /\ r < LazyDM.MARGIN + 10 + LazyDM.SMALL_LINE_HEIGHT
      /\ Forall (fun p => between (LazyDM.MARGIN + 22) 130 (snd p))
           (flat_map points_of ops).
Proof.
  assert (H : LazyDM.MARGIN + 10 <= 130) by discriminate.
  split; [exact H|].
  apply (fill_three_columns_keeps_margin 130 (fun _ _ _ => 0) H).
Defined.

(** The two-column tail of [draw_page4_secrets] draws one row more than
    fit: started from any cursor at or above [MARGIN + 10], no row is
    drawn below [MARGIN + 10], but the cursor it ends with lies between
    [MARGIN - 2] and [MARGIN + 10], so it can end below the margin.
    [draw_page4_secrets] reaches this tail with the cursor at
    [RM2_HEIGHT - 460]: its calls end with the 46 calls the tail makes
    from there, and its cursor ends where the tail's does. *)
Theorem fill_two_columns_overshoots (y : Q) (mt : Metrics) :
  LazyDM.MARGIN + 10 <= y ->
  (exists r ops,
      LazyDM_fill_two_columns y mt = Ok (r, ops)
      /\ LazyDM.MARGIN - 2 <= r
      /\ r < LazyDM.MARGIN + 10
      /\ Forall (fun p => between (LazyDM.MARGIN + 10) y (snd p))
           (flat_map points_of ops))
  /\ (exists r,
      value_of (LazyDM_fill_two_columns (LazyDM.MARGIN + 10) mt) = Some r
      /\ r < LazyDM.MARGIN)
  /\ (exists pre ops,
      trace_of (LazyDM.draw_page4_secrets mt) = Some (pre ++ ops)
      /\ trace_of (LazyDM_fill_two_columns (LazyDM.RM2_HEIGHT - 460) mt)
         = Some ops
      /\ List.length ops = 46%nat
      /\ value_of (LazyDM.draw_page4_secrets_cursor mt)
         = value_of (LazyDM_fill_two_columns (LazyDM.RM2_HEIGHT - 460) mt)).
Proof.
  intros Hy. unfold LazyDM.MARGIN, LazyDM.SMALL_LINE_HEIGHT in *.
  split; [|split; [eexists; split; [vm_compute; reflexivity | reflexivity]|]].
  - assert (Hy' : 30 <= y) by lra.
    assert (Hq : 0 <= (y - 20 - 10) / 12).
    { apply Qle_shift_div_l; [reflexivity | lra]. }
    destruct (int_floor _ Hq) as [Hlo Hhi].
    pose proof (int_nonnegative _ Hq) as Hn.
    assert (Hmul : 12 * ((y - 20 - 10) / 12) == y - 30) by field.
    unfold LazyDM_fill_two_columns. unfold bind at 1.
    change (Py.div (y - LazyDM.MARGIN - 10) LazyDM.SMALL_LINE_HEIGHT mt)
      with (@Ok (Q * list call) ((y - 20 - 10) / 12, [])).
    cbv beta iota zeta.
    match goal with
    | |- context [Py.for_acc ?l _ ?body] =>
        destruct (for_acc_descending l body 12 mt) with (y := y)
          as [r [ops [Hrun [Hr Hpts]]]]
    end.
    { reflexivity. }
    { intros i y'. eexists. split; [reflexivity|]. repeat constructor. }
    rewrite range_length, Z2Nat.id, inject_Z_plus in Hr by lia.
    change (#1) with 1 in Hr.
    exists r, (ops ++ [SetDash []]).
    split.
    { rewrite (fill_run_tail _ _ _ _ Hrun). reflexivity. }
    split; [lra|]. split; [lra|].
    rewrite points_of_app_reset.
    eapply Forall_impl; [|exact Hpts].
    intros p [Hlo' Hhi']. unfold between. split; lra.
  - exists (firstn 185 (match trace_of (LazyDM.draw_page4_secrets mt) with
                        | Some t => t | None => [] end)),
           (skipn 185 (match trace_of (LazyDM.draw_page4_secrets mt) with
                       | Some t => t | None => [] end)).
    repeat split; vm_compute; reflexivity.
Qed.

Lemma fill_two_columns_overshoots_witness :
  LazyDM.MARGIN + 10 <= 136
  /\ exists r ops,
      LazyDM_fill_two_columns 136 (fun _ _ _ => 0) = Ok (r, ops)
      /\ LazyDM.MARGIN - 2 <= r
      /\ r < LazyDM.MARGIN + 10
      /\ Forall (fun p => between (LazyDM.MARGIN + 10) 136 (snd p))
           (flat_map points_of ops).
Proof.
  assert (H : LazyDM.MARGIN + 10 <= 136) by discriminate.
  split; [exact H|].
  apply (fill_two_columns_overshoots 136 (fun _ _ _ => 0) H).
Defined.
